(** * A shallow embedding of the RGD test harness [test/scripts/TestRunner.py]

    The harness drives three external executables (the crash generator, the
    backend test binary [rgd_test] and the RGD CLI).  Their behaviour is not
    part of this repository; it is a parameter of the model ([exec_command]),
    exactly as [TestCrashCase.execute_command] treats it: a function from a
    command line and the file system to the captured output, the exit code and
    the file system the child process leaves behind.

    Python objects ([TestConfig], [TestCrashCase], [TestDriver]) are records
    that the methods take and return; the module-level loggers, the file
    system and the trace of observable effects are the state of a small
    state/exception monad [M]. *)

From Stdlib Require Import String Ascii List ZArith Bool Lia.
Import ListNotations.
Open Scope string_scope.
Open Scope Z_scope.

(** ** Strings *)

Definition dq : string := String (ascii_of_nat 34) EmptyString.
Definition bslash : string := String (ascii_of_nat 92) EmptyString.

(** Python's [pat in s] on strings. *)
Fixpoint contains (pat s : string) : bool :=
  prefix pat s ||
  match s with
  | EmptyString => false
  | String _ s' => contains pat s'
  end.

(** [s.endswith(suf)] *)
Definition suffix (suf s : string) : bool :=
  (String.length suf <=? String.length s)%nat &&
  String.eqb (substring (String.length s - String.length suf) (String.length suf) s) suf.

(** [s.replace(a, b)] for single characters. *)
Fixpoint replace_char (a b : ascii) (s : string) : string :=
  match s with
  | EmptyString => EmptyString
  | String c s' => String (if Ascii.eqb c a then b else c) (replace_char a b s')
  end.

(** [s.lower()] on ASCII text. *)
Definition lower_ascii (c : ascii) : ascii :=
  let n := nat_of_ascii c in
  if (65 <=? n)%nat && (n <=? 90)%nat then ascii_of_nat (n + 32) else c.

Fixpoint lower (s : string) : string :=
  match s with
  | EmptyString => EmptyString
  | String c s' => String (lower_ascii c) (lower s')
  end.

(** [os.path.normcase] on Windows: [s.replace('/', '\\').lower()]. *)
Definition normcase (s : string) : string :=
  lower (replace_char "/" (ascii_of_nat 92) s).

(** Windows compares file names without regard to case. *)
Definition name_eq (a b : string) : bool := String.eqb (normcase a) (normcase b).

(** ** Glob patterns ([fnmatch], [glob]) on Windows

    [fnmatch.translate] turns a pattern into a regular expression: [*] and
    [?] match any text and any character, [[...]] a set of characters
    ([[!...]] its complement) and any other character itself; a [[] with no
    closing []] is itself. In a set, a [-] between two characters makes a
    range, read from the left; a reversed range such as [z-a] matches
    nothing (Python 3.9 and later drop it). *)
Inductive pat_tok : Type :=
| PStar
| PAny
| PChar (c : ascii)
| PSet (neg : bool) (items : list (ascii * ascii)).

(** The members of a set, each a range [(lo, hi)]. *)
Fixpoint set_items (s : string) : list (ascii * ascii) :=
  match s with
  | EmptyString => []
  | String a ((String m (String b s'')) as s') =>
      if Ascii.eqb m "-" then (a, b) :: set_items s'' else (a, a) :: set_items s'
  | String a s' => (a, a) :: set_items s'
  end.

(** The text up to the first []] and what follows it. *)
Fixpoint upto_close (s : string) : option (string * string) :=
  match s with
  | EmptyString => None
  | String c s' =>
      if Ascii.eqb c "]" then Some (EmptyString, s')
      else match upto_close s' with
           | Some (a, b) => Some (String c a, b)
           | None => None
           end
  end.

(** [fnmatch.translate]; [fuel] bounds the characters to read. *)
Fixpoint translate (fuel : nat) (p : string) : list pat_tok :=
  match fuel with
  | O => []
  | S fuel' =>
      match p with
      | EmptyString => []
      | String c p' =>
          if Ascii.eqb c "*" then PStar :: translate fuel' p'
          else if Ascii.eqb c "?" then PAny :: translate fuel' p'
          else if Ascii.eqb c "[" then
            let '(neg, r1) :=
              match p' with
              | String x r => if Ascii.eqb x "!" then (true, r) else (false, p')
              | EmptyString => (false, p')
              end in
            let '(first, r2) :=
              match r1 with
              | String x r => if Ascii.eqb x "]" then (String x EmptyString, r) else (EmptyString, r1)
              | EmptyString => (EmptyString, r1)
              end in
            match upto_close r2 with
            | None => PChar c :: translate fuel' p'
            | Some (body, rest) => PSet neg (set_items (first ++ body)) :: translate fuel' rest
            end
          else PChar c :: translate fuel' p'
      end
  end.

Definition in_set (items : list (ascii * ascii)) (c : ascii) : bool :=
  existsb (fun r => (nat_of_ascii (fst r) <=? nat_of_ascii c)%nat &&
                    (nat_of_ascii c <=? nat_of_ascii (snd r))%nat) items.

(** A full match of the compiled pattern. *)
Fixpoint match_toks (ts : list pat_tok) (s : string) : bool :=
  match ts with
  | [] => match s with EmptyString => true | String _ _ => false end
  | PStar :: ts' =>
      (fix go (s : string) : bool :=
         match_toks ts' s || match s with EmptyString => false | String _ s' => go s' end) s
  | PAny :: ts' => match s with EmptyString => false | String _ s' => match_toks ts' s' end
  | PChar c :: ts' =>
      match s with EmptyString => false | String c' s' => Ascii.eqb c c' && match_toks ts' s' end
  | PSet neg items :: ts' =>
      match s with
      | EmptyString => false
      | String c' s' => xorb neg (in_set items c') && match_toks ts' s'
      end
  end.

(** [fnmatch.fnmatch(name, pat)] on Windows: both sides go through
    [normcase]. *)
Definition fnmatch (name pat : string) : bool :=
  let p := normcase pat in
  match_toks (translate (String.length p) p) (normcase name).

(** [glob.has_magic] *)
Fixpoint has_magic (s : string) : bool :=
  match s with
  | EmptyString => false
  | String c s' => Ascii.eqb c "*" || Ascii.eqb c "?" || Ascii.eqb c "[" || has_magic s'
  end.

Definition is_hidden (s : string) : bool := prefix "." s.

(** Whether [glob] lists the entry [name] of a directory for the pattern
    [pat] ([glob._glob1]): names starting with a dot only for a pattern
    that starts with one. *)
Definition glob_match (pat name : string) : bool :=
  (is_hidden pat || negb (is_hidden name)) && fnmatch name pat.

Fixpoint digits_of_nat (fuel n : nat) (acc : string) : string :=
  match fuel with
  | O => acc
  | S f =>
      let acc' := String (ascii_of_nat (48 + Nat.modulo n 10)) acc in
      if (n <? 10)%nat then acc' else digits_of_nat f (Nat.div n 10) acc'
  end.

Definition string_of_nat (n : nat) : string := digits_of_nat (S n) n EmptyString.

(** [str(z)] for a Python int. *)
Definition string_of_Z (z : Z) : string :=
  if z <? 0 then "-" ++ string_of_nat (Z.to_nat (- z)) else string_of_nat (Z.to_nat z).

(** ** JSON values as [json.load] returns them

    Numbers are the integers of the descriptor format; objects are association
    lists with distinct keys (a test declaration is such an object). *)
Inductive jval : Type :=
| JNull
| JBool (b : bool)
| JNum (z : Z)
| JStr (s : string).

Definition jobj : Type := list (string * jval).

(** Python truthiness: [None], [False], [0] and [""] are falsy. *)
Definition truthy (v : jval) : bool :=
  match v with
  | JNull => false
  | JBool b => b
  | JNum z => negb (z =? 0)
  | JStr s => negb (String.eqb s "")
  end.

(** [str(v)] *)
Definition py_str (v : jval) : string :=
  match v with
  | JNull => "None"
  | JBool true => "True"
  | JBool false => "False"
  | JNum z => string_of_Z z
  | JStr s => s
  end.

(** [d.get(key, default)] *)
Fixpoint get (d : jobj) (key : string) (default : jval) : jval :=
  match d with
  | [] => default
  | (k, v) :: d' => if String.eqb k key then v else get d' key default
  end.

(** A descriptor file: the JSON mapping from API name to test declarations,
    in the order [dict.items()] yields them. *)
Definition descriptor : Type := list (string * list jobj).

(** ** Logging levels (TestRunner.py, "Logging levels") *)
Definition DEBUG       : Z := 10.
Definition TEST_INFO   : Z := 15.
Definition INFO        : Z := 20.
Definition TEST_MSG    : Z := 22.
Definition TEST_PASS   : Z := 32.
Definition WARNING     : Z := 30.
Definition TEST_FAIL   : Z := 37.
Definition ERROR       : Z := 40.
Definition TEST_RESULT : Z := 45.
Definition CRITICAL    : Z := 100.

Definition SUPPORTED_APIS : list string := ["DX12"].

Definition STR_DEFAULT_TEST_DESC_FILE : string :=
  "input_description_files" ++ bslash ++ "RgdDriverSanity.json".

(** [os.path.join] on Windows. *)
Definition join (a b : string) : string := a ++ bslash ++ b.

(** ** The file system the harness observes

    Only the directories the harness reads or writes are modelled:
    - [fs_sample_apps], [fs_gpu_trasher]: whether
      [<crash generator folder>/sample_apps] and [.../sample_apps/GpuTrasher]
      exist;
    - [fs_app_logs]: the files (name and size) in the GpuTrasher folder (the
      crashing app's working directory, where its logs appear);
    - [fs_cg_dirs]: the sub-directories of the crash generator's folder with
      the files they hold, in directory-listing (glob) order;
    - [fs_out]: the files of [test_output_files_dir] with their sizes, [None]
      while that directory does not exist;
    - [fs_descriptors]: the descriptor files, already parsed;
    - [fs_move_fault]: how the operating system makes [shutil.move] of a
      file fail, if it does (see [move_fault]).
    The paths of these directories hold no glob magic character, so a glob
    pattern built on one of them lists that directory only. *)

(** Where a file to be moved lives: the crashing app's folder, or a
    sub-directory of the crash generator's folder. *)
Inductive loc : Type :=
| InAppDir
| InCgDir (dir : string).

(** A failure of [shutil.move] other than an existing destination:
    [MoveRefused], nothing is written (a permission or sharing violation);
    [CopyKept sz], the rename fails, [copy2] leaves [sz] bytes at the
    destination and then it or the unlink of the source raises. *)
Inductive move_fault : Type :=
| MoveRefused
| CopyKept (sz : nat).

Record fs : Type := mkFS {
  fs_sample_apps : bool;
  fs_gpu_trasher : bool;
  fs_app_logs : list (string * nat);
  fs_cg_dirs : list (string * list (string * nat));
  fs_out : option (list (string * nat));
  fs_descriptors : list (string * descriptor);
  fs_move_fault : loc -> string -> option move_fault
}.

(** Observable effects, in the order they happen. [EvLog lvl msg] is a call of
    the structured logger at level [lvl] (whether a handler prints it depends
    on the handler thresholds); [EvSummary msg] a call of
    [legacy_logger.summary_info]; [EvExec cmd] a child process;
    [EvRmtree path] a [shutil.rmtree]; [EvPopup] the call of
    [close_bug_report_popup_window]. The capture/backend channels and the
    per-case failure logs of the legacy logger are not recorded. *)
Inductive event : Type :=
| EvLog (lvl : Z) (msg : string)
| EvSummary (msg : string)
| EvExec (cmd : list string)
| EvRmtree (path : string)
| EvPopup.

Record st : Type := mkSt { s_fs : fs; s_trace : list event }.

(** Exceptions the modelled code can raise; none is caught, so each ends the
    process with exit status 1. *)
Inductive exn : Type :=
| NameError
| AttributeError
| TypeError
| FileNotFoundError
| FileExistsError.

(** Outcome of a computation: a normal result, [sys.exit(code)], or an
    unhandled exception; each with the state reached. *)
Inductive outcome (A : Type) : Type :=
| Ret (a : A) (s : st)
| Exit (code : Z) (s : st)
| Raise (e : exn) (s : st).
Arguments Ret {A} a s.
Arguments Exit {A} code s.
Arguments Raise {A} e s.

Definition M (A : Type) : Type := st -> outcome A.

Definition ret {A} (a : A) : M A := fun s => Ret a s.

Definition bind {A B} (m : M A) (k : A -> M B) : M B :=
  fun s => match m s with
           | Ret a s' => k a s'
           | Exit c s' => Exit c s'
           | Raise e s' => Raise e s'
           end.

Notation "x <- m ;; k" := (bind m (fun x => k))
  (at level 61, m at next level, right associativity).
Notation "m ;; k" := (bind m (fun _ => k))
  (at level 61, right associativity).

Definition emit (e : event) : M unit :=
  fun s => Ret tt (mkSt (s_fs s) (s_trace s ++ [e])).

Definition log (lvl : Z) (msg : string) : M unit := emit (EvLog lvl msg).
Definition summary_info (msg : string) : M unit := emit (EvSummary msg).

Definition get_fs : M fs := fun s => Ret (s_fs s) s.
Definition put_fs (f : fs) : M unit := fun s => Ret tt (mkSt f (s_trace s)).
Definition raise {A} (e : exn) : M A := fun s => Raise e s.
Definition sys_exit {A} (code : Z) : M A := fun s => Exit code s.

Fixpoint mfold {A B} (f : A -> B -> M A) (xs : list B) (a : A) : M A :=
  match xs with
  | [] => ret a
  | x :: xs' => a' <- f a x ;; mfold f xs' a'
  end.

(** ** File-system helpers *)

Definition has_name (name : string) (e : string * nat) : bool := String.eqb (fst e) name.

Definition lookup_size (name : string) (l : list (string * nat)) : option nat :=
  option_map snd (find (has_name name) l).

Definition remove_name (name : string) (l : list (string * nat)) : list (string * nat) :=
  filter (fun e => negb (has_name name e)) l.

(** [glob.glob(os.path.join(dir, pat))] for the files [l] of the directory
    [dir] ([None] when it does not exist). Without a magic character it
    returns the path itself when [os.path.lexists] finds it, which on Windows
    ignores case; with one, the paths of the names that match, in listing
    order. *)
Definition glob_in (dir pat : string) (l : option (list (string * nat))) : list string :=
  match l with
  | None => []
  | Some l =>
      if has_magic pat then map (join dir) (filter (glob_match pat) (map fst l))
      else if existsb (fun e => name_eq (fst e) pat) l then [join dir pat] else []
  end.

(** [Path(p).parent] for a Windows path. *)
Fixpoint parent_aux (s : string) (cur acc : string) : string :=
  match s with
  | EmptyString => acc
  | String c s' =>
      if Ascii.eqb c (ascii_of_nat 92)
      then parent_aux s' (cur ++ String c EmptyString) cur
      else parent_aux s' (cur ++ String c EmptyString) acc
  end.
Definition parent (p : string) : string := parent_aux p "" "".

Definition cg_files (f : fs) (dir : string) : list (string * nat) :=
  match find (fun d => String.eqb (fst d) dir) (fs_cg_dirs f) with
  | Some (_, files) => files
  | None => []
  end.

Definition lookup_file (f : fs) (l : loc) (name : string) : option nat :=
  match l with
  | InAppDir => lookup_size name (fs_app_logs f)
  | InCgDir d =>
      if existsb (fun e => String.eqb (fst e) d) (fs_cg_dirs f)
      then lookup_size name (cg_files f d) else None
  end.

Definition remove_file (f : fs) (l : loc) (name : string) : fs :=
  match l with
  | InAppDir =>
      mkFS (fs_sample_apps f) (fs_gpu_trasher f) (remove_name name (fs_app_logs f))
           (fs_cg_dirs f) (fs_out f) (fs_descriptors f) (fs_move_fault f)
  | InCgDir d =>
      mkFS (fs_sample_apps f) (fs_gpu_trasher f) (fs_app_logs f)
           (map (fun e => if String.eqb (fst e) d then (fst e, remove_name name (snd e)) else e)
                (fs_cg_dirs f))
           (fs_out f) (fs_descriptors f) (fs_move_fault f)
  end.

Definition set_out (f : fs) (o : option (list (string * nat))) : fs :=
  mkFS (fs_sample_apps f) (fs_gpu_trasher f) (fs_app_logs f) (fs_cg_dirs f) o (fs_descriptors f)
       (fs_move_fault f).

Definition set_app_logs (f : fs) (l : list (string * nat)) : fs :=
  mkFS (fs_sample_apps f) (fs_gpu_trasher f) l (fs_cg_dirs f) (fs_out f) (fs_descriptors f)
       (fs_move_fault f).

Definition set_cg_dirs (f : fs) (l : list (string * list (string * nat))) : fs :=
  mkFS (fs_sample_apps f) (fs_gpu_trasher f) (fs_app_logs f) l (fs_out f) (fs_descriptors f)
       (fs_move_fault f).

(** [move_folder(source_path, destination_path)] with the destination
    [test_output_files_dir]: both paths must exist. [shutil.move] raises
    when the directory already holds a file of that name (in any case), or
    when the operating system makes it fail ([fs_move_fault]); the function
    catches the exception, logs it (its text is not modelled) and returns
    [False]. *)
Definition move_folder (l : loc) (name : string) : M bool :=
  f <- get_fs ;;
  match lookup_file f l name, fs_out f with
  | Some sz, Some out =>
      if existsb (fun e => name_eq (fst e) name) out then
        log ERROR "Unable to move generated test files: Destination path already exists" ;;
        ret false
      else
        match fs_move_fault f l name with
        | None =>
            put_fs (set_out (remove_file f l name) (Some (app out [(name, sz)]))) ;;
            ret true
        | Some MoveRefused =>
            log ERROR "Unable to move generated test files: OSError" ;;
            ret false
        | Some (CopyKept sz') =>
            put_fs (set_out f (Some (app out [(name, sz')]))) ;;
            log ERROR "Unable to move generated test files: OSError" ;;
            ret false
        end
  | _, _ => ret false
  end.

(** [shutil.rmtree] of a run directory of the crash generator's folder. *)
Definition rmtree_cg (cg_dir name : string) : M unit :=
  emit (EvRmtree (join cg_dir name)) ;;
  f <- get_fs ;;
  put_fs (set_cg_dirs f (filter (fun d => negb (String.eqb (fst d) name)) (fs_cg_dirs f))).

(** ** TestCrashCase

    The fields that only feed log output (captured console/error texts, stage
    durations, the CLI output paths) are left out. *)
Record crash_case : Type := mkCase {
  cc_api : string;
  cc_case_no : jval;
  cc_name : jval;
  cc_page_fault : bool;
  cc_crashing_app_path : string;
  cc_app_crashed : bool;
  cc_capture_passed : bool;
  cc_backend_passed : bool;
  cc_dump_generated : bool;
  cc_dump_path : option string
}.

(** [TestCrashCase.__init__] *)
Definition new_case (api : string) (name case_no : jval) : crash_case :=
  mkCase api case_no name false "" true true true false None.

Definition set_page_fault (c : crash_case) (b : bool) : crash_case :=
  mkCase (cc_api c) (cc_case_no c) (cc_name c) b (cc_crashing_app_path c) (cc_app_crashed c)
         (cc_capture_passed c) (cc_backend_passed c) (cc_dump_generated c) (cc_dump_path c).
Definition set_crashing_app_path (c : crash_case) (p : string) : crash_case :=
  mkCase (cc_api c) (cc_case_no c) (cc_name c) (cc_page_fault c) p (cc_app_crashed c)
         (cc_capture_passed c) (cc_backend_passed c) (cc_dump_generated c) (cc_dump_path c).
Definition set_app_crashed (c : crash_case) (b : bool) : crash_case :=
  mkCase (cc_api c) (cc_case_no c) (cc_name c) (cc_page_fault c) (cc_crashing_app_path c) b
         (cc_capture_passed c) (cc_backend_passed c) (cc_dump_generated c) (cc_dump_path c).
Definition set_capture_passed (c : crash_case) (b : bool) : crash_case :=
  mkCase (cc_api c) (cc_case_no c) (cc_name c) (cc_page_fault c) (cc_crashing_app_path c)
         (cc_app_crashed c) b (cc_backend_passed c) (cc_dump_generated c) (cc_dump_path c).
Definition set_backend_passed (c : crash_case) (b : bool) : crash_case :=
  mkCase (cc_api c) (cc_case_no c) (cc_name c) (cc_page_fault c) (cc_crashing_app_path c)
         (cc_app_crashed c) (cc_capture_passed c) b (cc_dump_generated c) (cc_dump_path c).
Definition set_dump_generated (c : crash_case) (b : bool) : crash_case :=
  mkCase (cc_api c) (cc_case_no c) (cc_name c) (cc_page_fault c) (cc_crashing_app_path c)
         (cc_app_crashed c) (cc_capture_passed c) (cc_backend_passed c) b (cc_dump_path c).
Definition set_dump_path (c : crash_case) (p : option string) : crash_case :=
  mkCase (cc_api c) (cc_case_no c) (cc_name c) (cc_page_fault c) (cc_crashing_app_path c)
         (cc_app_crashed c) (cc_capture_passed c) (cc_backend_passed c) (cc_dump_generated c) p.

Definition case_string (c : crash_case) : string := "case" ++ py_str (cc_case_no c).

(** [get_gtest_filter] *)
Definition get_gtest_filter (c : crash_case) : string :=
  replace_char "." "_" ("--gtest_filter=*Case" ++ py_str (cc_case_no c)).

(** ** The external processes *)

Record proc_result : Type := mkProc {
  p_out : string;
  p_err : string;
  p_rc : Z;
  p_fs : fs
}.

Fixpoint concat_sep (sep : string) (l : list string) : string :=
  match l with
  | [] => ""
  | [x] => x
  | x :: l' => x ++ sep ++ concat_sep sep l'
  end.

(** The names [glob] lists for [GpuTrasher_DX12*.txt], [rgd-dumps-run*]
    and [*.rgd]. *)
Definition is_trasher_log (name : string) : bool := glob_match "GpuTrasher_DX12*.txt" name.

Definition is_run_dir (d : string * list (string * nat)) : bool :=
  glob_match "rgd-dumps-run*" (fst d).

Definition is_rgd_dump (name : string) : bool := glob_match "*.rgd" name.

(** [name + '-log' + extension] for the [os.path.splitext] of a name that
    [is_trasher_log] accepts: its extension is its last four characters. *)
Definition log_name_with_suffix (name : string) : string :=
  substring 0 (String.length name - 4) name ++ "-log"
  ++ substring (String.length name - 4) 4 name.

Definition STR_PASSED : string := "......[PASSED]".
Definition STR_FAILED : string := "......[FAILED]".

Section Harness.

(** The behaviour of the child processes. *)
Variable exec_command : list string -> fs -> proc_result.

(** [TestCrashCase.execute_command] *)
Definition execute_command (cmd : list string) : M (string * string * Z) :=
  emit (EvExec cmd) ;;
  f <- get_fs ;;
  let r := exec_command cmd f in
  put_fs (p_fs r) ;;
  ret (p_out r, p_err r, p_rc r).

(** [os.rename(log_file, new_file_path)] in the GpuTrasher folder (Windows
    refuses to rename onto an existing file). *)
Definition rename_log (name : string) : M unit :=
  f <- get_fs ;;
  let name' := log_name_with_suffix name in
  if existsb (fun e => name_eq (fst e) name') (fs_app_logs f) then raise FileExistsError
  else put_fs (set_app_logs f
         (map (fun e => if String.eqb (fst e) name then (name', snd e) else e) (fs_app_logs f))).

(** [TestCrashCase.move_crash_generator_log]. A failed move reaches the
    message [f"... {self.test_config.test_output_files_dir}"], and a
    [TestCrashCase] has no [test_config] attribute. *)
Definition move_crash_generator_log (c : crash_case) : M bool :=
  f <- get_fs ;;
  let logs := filter is_trasher_log (map fst (fs_app_logs f)) in
  let is_app_crashed := fold_left (fun _ n => contains (case_string c) n) logs false in
  mfold (fun _ n => rename_log n) logs tt ;;
  f' <- get_fs ;;
  let logs' := filter is_trasher_log (map fst (fs_app_logs f')) in
  mfold (fun _ n =>
           ok <- move_folder InAppDir n ;;
           if ok then ret tt else raise AttributeError) logs' tt ;;
  ret is_app_crashed.

(** One iteration of the loop over the [*.rgd] files of the chosen run
    directory [run_dir]: the dump's name is passed to [glob] as a pattern in
    [out_dir], and the last path found is recorded. *)
Definition dump_step (c0 : crash_case) (run_dir out_dir : string)
    (acc : bool * crash_case) (name : string) : M (bool * crash_case) :=
  let '(is_crash_dump, c) := acc in
  if contains (case_string c0) name then
    move_folder (InCgDir run_dir) name ;;
    f <- get_fs ;;
    let found := glob_in out_dir name (fs_out f) in
    if Nat.eqb (List.length found) 1 then
      ret (true, set_dump_path c (Some (last found "")))
    else
      summary_info ("ERROR: Invalid crash dump file count for file " ++ name ++ ". Count: "
                    ++ string_of_nat (List.length found)) ;;
      sys_exit 1
  else ret (is_crash_dump, c).

(** [TestCrashCase.move_generated_crash_dump]: returns [is_crash_dump] and the
    case with [generated_rgd_crash_dump_file_path] updated. *)
Definition move_generated_crash_dump (c : crash_case) (cg_dir out_dir : string)
    : M (bool * crash_case) :=
  f <- get_fs ;;
  let run_dirs := filter is_run_dir (fs_cg_dirs f) in
  match run_dirs with
  | [] => ret (false, c)
  | _ :: _ =>
      let run_dir := last run_dirs ("", []) in
      let dumps := filter is_rgd_dump (map fst (snd run_dir)) in
      r <- mfold (dump_step c (fst run_dir) out_dir) dumps (false, c) ;;
      mfold (fun _ d => rmtree_cg cg_dir (fst d)) run_dirs tt ;;
      ret r
  end.

(** [TestCrashCase.launch_crash_generator_exe] (the duration is not kept). *)
Definition launch_crash_generator_exe (c : crash_case) (cg_exe out_dir : string)
    : M crash_case :=
  log TEST_INFO "" ;;
  let cmd := [cg_exe; get_gtest_filter c] in
  summary_info (concat_sep " " cmd) ;;
  r <- execute_command cmd ;;
  let '(_, _, rc) := r in
  app <- move_crash_generator_log c ;;
  let c1 := set_app_crashed c app in
  r2 <- move_generated_crash_dump c1 (parent cg_exe) out_dir ;;
  let '(dump, c2) := r2 in
  let c3 := set_dump_generated c2 dump in
  if (rc =? 0) || cc_dump_generated c3 then
    summary_info ("Capture:" ++ STR_PASSED) ;;
    (if cc_dump_generated c3
     then log TEST_MSG ("Crash dump file generated successfully for test " ++ dq
                        ++ py_str (cc_name c3) ++ dq ++ ".")
     else ret tt) ;;
    ret (set_capture_passed c3 true)
  else if cc_app_crashed c3 then
    summary_info ("Capture:" ++ STR_FAILED ++ " (Return code: " ++ string_of_Z rc ++ ")") ;;
    log TEST_FAIL ("Crash dump file not generated for test " ++ dq
                   ++ py_str (cc_name c3) ++ dq ++ ".") ;;
    ret (set_capture_passed c3 false)
  else
    summary_info ("Capture:" ++ STR_FAILED ++ " (Return code: " ++ string_of_Z rc ++ ")") ;;
    ret (set_capture_passed c3 false).

(** [Path(p).name] and [os.path.splitext(name)[0]]. *)
Fixpoint basename_aux (s cur : string) : string :=
  match s with
  | EmptyString => cur
  | String c s' =>
      if Ascii.eqb c (ascii_of_nat 92) then basename_aux s' ""
      else basename_aux s' (cur ++ String c EmptyString)
  end.
Definition basename (p : string) : string := basename_aux p "".

(** [os.path.splitext] cuts at the last dot unless only dots precede it. *)
Fixpoint stem_aux (s cur : string) (acc : option string) (nondot : bool) : string :=
  match s with
  | EmptyString => match acc with Some a => a | None => cur end
  | String c s' =>
      if Ascii.eqb c "."
      then stem_aux s' (cur ++ String c EmptyString) (if nondot then Some cur else acc) nondot
      else stem_aux s' (cur ++ String c EmptyString) acc true
  end.
Definition stem (name : string) : string := stem_aux name "" None false.

(** [TestCrashCase.launch_rgd_test_exe]; the echo of the child's output
    ([post_process_rgd_test_output]) is not recorded. With no dump path the
    command list holds [None] and [' '.join] raises. *)
Definition launch_rgd_test_exe (c : crash_case) (rgd_test : string) : M crash_case :=
  log TEST_INFO "" ;;
  log TEST_INFO "Running RGD Tests..." ;;
  match cc_dump_path c with
  | None => raise TypeError
  | Some p =>
      let cmd := (app [rgd_test; "--rgd"; p] (if cc_page_fault c then ["--page-fault"] else [])) in
      r <- execute_command cmd ;;
      let '(_, _, rc) := r in
      if rc =? 0 then
        summary_info ("BackendTest: API: " ++ cc_api c ++ "    " ++ concat_sep " " cmd ++ STR_PASSED) ;;
        ret (set_backend_passed c true)
      else
        summary_info ("BackendTest: API: " ++ cc_api c ++ "    " ++ concat_sep " " cmd ++ STR_FAILED) ;;
        ret (set_backend_passed c false)
  end.

(** [is_non_empty_file] for a file of [test_output_files_dir]. *)
Definition is_non_empty_out (f : fs) (name : string) : bool :=
  match fs_out f with
  | Some out => match lookup_size name out with Some (S _) => true | _ => false end
  | None => false
  end.

(** [TestCrashCase.launch_rgd_cli_exe]; it changes no field of the case. *)
Definition launch_rgd_cli_exe (c : crash_case) (rgd_cli out_dir : string) : M unit :=
  log TEST_INFO "" ;;
  log TEST_INFO "Running RGD CLI..." ;;
  match cc_dump_path c with
  | None => raise AttributeError
  | Some p =>
      let name := basename p in
      log TEST_INFO ("Input crash dump file: " ++ name) ;;
      let txt := stem name ++ "-summary.txt" in
      let json := stem name ++ "-summary.json" in
      execute_command [rgd_cli; "-j"; join out_dir json; "-o"; join out_dir txt; "-p"; p] ;;
      f <- get_fs ;;
      let t := is_non_empty_out f txt in
      let j := is_non_empty_out f json in
      let nm := dq ++ py_str (cc_name c) ++ dq ++ "." in
      if t && j then log TEST_MSG ("RGD text and JSON output is generated for test " ++ nm)
      else if t then
        log TEST_MSG ("RGD text output is generated for test " ++ nm) ;;
        log TEST_FAIL ("RGD JSON output is not generated for test " ++ nm)
      else if j then
        log TEST_MSG ("RGD JSON output is generated for test " ++ nm) ;;
        log TEST_FAIL ("RGD text output is not generated for test " ++ nm)
      else log TEST_FAIL ("RGD text and JSON output is not generated for test " ++ nm)
  end.

(** [f"{case_no:02}"]: an int (a bool is one) is padded with zeros after
    its sign, a string with zeros on the right (Python 3.10 and later).
    [None] has no such format; [run_tests] never reaches it with one. *)
Definition fmt02 (v : jval) : string :=
  match v with
  | JNum z => if (0 <=? z) && (z <? 10) then "0" ++ string_of_Z z else string_of_Z z
  | JBool b => if b then "01" else "00"
  | JStr t => if (String.length t <? 2)%nat then t ++ substring 0 (2 - String.length t) "00" else t
  | JNull => py_str v
  end.

(** [TestCrashCase.log_test_results]; the extended failure log is not
    recorded. *)
Definition log_test_results (c : crash_case) : M unit :=
  let tail := fmt02 (cc_case_no c) ++ "] - " ++ dq ++ py_str (cc_name c) ++ dq in
  if cc_capture_passed c && cc_backend_passed c
  then log TEST_PASS ("Crash test passed for case no [" ++ tail)
  else log TEST_FAIL ("Crash test failed for case no [" ++ tail).

(** ** TestConfig and TestDriver *)

Record config : Type := mkConfig {
  cfg_retain : bool;
  cfg_verbose : bool;
  cfg_cg_exe : string;
  cfg_rgd_test : string;
  cfg_rgd_cli : string;
  cfg_test_api : list string;
  cfg_descriptors : list string;
  cfg_out_dir : string;
  cfg_out_files_dir : string;
  cfg_gpu_trasher_path : string
}.

(** The fields of [TestDriver] other than the durations. [d_cases] is
    [self.crash_cases]; the case objects are appended to it before their
    stages run and mutated afterwards, which the model renders by appending
    the finished case (nothing reads the list in between). *)
Record driver : Type := mkDriver {
  d_cases : list crash_case;
  d_cap_pass : Z;
  d_cap_fail : Z;
  d_be_pass : Z;
  d_be_fail : Z
}.

Definition new_driver : driver := mkDriver [] 0 0 0 0.

Definition add_case (d : driver) (c : crash_case) : driver :=
  mkDriver (app (d_cases d) [c]) (d_cap_pass d) (d_cap_fail d) (d_be_pass d) (d_be_fail d).

(** The innermost [else] branch of [TestDriver.run_tests]: build the case and
    run its stages. *)
Definition run_case (cfg : config) (api : string) (t : jobj) (d : driver) : M driver :=
  let c0 := new_case api (get t "test_name" (JStr "NULL")) (get t "crash_test_case" JNull) in
  let c1 := set_crashing_app_path c0 (cfg_gpu_trasher_path cfg) in
  let c2 := if truthy (get t "page_fault_case" (JBool false)) then set_page_fault c1 true else c1 in
  c3 <- launch_crash_generator_exe c2 (cfg_cg_exe cfg) (cfg_out_files_dir cfg) ;;
  c4 <- (if cc_capture_passed c3 then
           if cc_dump_generated c3 then
             c' <- launch_rgd_test_exe c3 (cfg_rgd_test cfg) ;;
             launch_rgd_cli_exe c' (cfg_rgd_cli cfg) (cfg_out_files_dir cfg) ;;
             ret c'
           else
             summary_info ("BackendTest: Skipped. For case #" ++ py_str (cc_case_no c3)
                ++ ", crash dump is not generated which is expected on the current system config.") ;;
             ret c3
         else ret c3) ;;
  log_test_results c4 ;;
  ret (add_case d c4).

(** One declaration of a test set. The loop state pairs the driver with the
    local variable [test_name] of [run_tests]: [None] while it is unbound,
    reading it then raises [UnboundLocalError], a [NameError]. *)
Definition process_test (cfg : config) (api : string)
    (acc : driver * option string) (t : jobj) : M (driver * option string) :=
  let '(d, test_name) := acc in
  if negb (truthy (get t "verify_crash_dump" (JBool false))) then
    let n := py_str (get t "test_name" (JStr "N/A")) in
    log WARNING ("Test " ++ dq ++ n ++ dq ++ " is ignored as " ++ dq ++ "verify_crash_dump" ++ dq
                 ++ " is not set in the test descriptor.") ;;
    ret (d, Some n)
  else if negb (truthy (get t "crash_test_case" (JBool false))) then
    match test_name with
    | None => raise NameError
    | Some n =>
        log WARNING ("Invalid/No case no provided for test " ++ dq ++ n ++ dq ++ ".") ;;
        ret (d, test_name)
    end
  else
    d' <- run_case cfg api t d ;;
    ret (d', test_name).

Definition run_test_set (cfg : config) (api : string) (tests : list jobj)
    (acc : driver * option string) : M (driver * option string) :=
  mfold (process_test cfg api) tests acc.

(** One [api, test_set] item of a descriptor. [logger.critical] logs at
    [logging.CRITICAL], 50 (the script's own [CRITICAL] is 100). *)
Definition run_api (cfg : config) (acc : driver * option string) (item : string * list jobj)
    : M (driver * option string) :=
  let '(api, tests) := item in
  log TEST_MSG ("Running tests for API - " ++ api) ;;
  if existsb (String.eqb api) SUPPORTED_APIS then run_test_set cfg api tests acc
  else
    log 50 (api ++ " is not supported. Supported APIs - DX12") ;;
    ret acc.

(** The counting loop of [log_final_test_status], one case. *)
Definition tally (d : driver) (c : crash_case) : driver :=
  if cc_capture_passed c then
    if cc_backend_passed c
    then mkDriver (d_cases d) (d_cap_pass d + 1) (d_cap_fail d) (d_be_pass d + 1) (d_be_fail d)
    else mkDriver (d_cases d) (d_cap_pass d + 1) (d_cap_fail d) (d_be_pass d) (d_be_fail d + 1)
  else mkDriver (d_cases d) (d_cap_pass d) (d_cap_fail d + 1) (d_be_pass d) (d_be_fail d).

Definition rmtree_out (path : string) : M unit :=
  emit (EvRmtree path) ;;
  f <- get_fs ;;
  put_fs (set_out f None).

(** [TestDriver.log_final_test_status]; returns [is_test_failed] and the
    driver with its counters updated. *)
Definition log_final_test_status (cfg : config) (d : driver) : M (bool * driver) :=
  let d' := fold_left tally (d_cases d) d in
  let total := Z.of_nat (List.length (d_cases d')) in
  let cap := string_of_Z (d_cap_pass d' + d_cap_fail d') in
  log TEST_MSG "" ;;
  log TEST_RESULT ("Final test summary: PASSED: " ++ string_of_Z (d_cap_pass d') ++ "/" ++ cap
                   ++ " FAILED: " ++ string_of_Z (d_cap_fail d') ++ "/" ++ cap) ;;
  log TEST_MSG "" ;;
  summary_info "=============" ;;
  summary_info "Test Results:" ;;
  summary_info ("Capture Test runs: " ++ string_of_Z (d_cap_pass d') ++ " out of "
                ++ string_of_Z total ++ (if d_cap_fail d' >? 0 then STR_FAILED else STR_PASSED)) ;;
  summary_info ("Backend Test runs: " ++ string_of_Z (d_be_pass d') ++ " out of "
                ++ string_of_Z (d_be_pass d' + d_be_fail d')
                ++ (if d_be_fail d' >? 0 then STR_FAILED else STR_PASSED)) ;;
  if negb (d_cap_fail d' =? 0) || negb (d_be_fail d' =? 0) then
    log TEST_MSG ("Test output files are retained! Path: " ++ cfg_out_files_dir cfg) ;;
    ret (true, d')
  else if negb (cfg_retain cfg) then
    rmtree_out (cfg_out_files_dir cfg) ;;
    ret (false, d')
  else ret (false, d').

(** [TestDriver.run_tests]. The [return] sits in the body of the loop over
    [test_descriptors]: the first iteration returns, so [run_tests] looks at
    the first descriptor file only; with no descriptor file it returns
    [None]. *)
Definition run_tests (cfg : config) (d : driver) : M (option bool * driver) :=
  match cfg_descriptors cfg with
  | [] => ret (None, d)
  | file :: _ =>
      log TEST_MSG ("Processing test descriptor - " ++ file) ;;
      f <- get_fs ;;
      match find (fun e => String.eqb (fst e) file) (fs_descriptors f) with
      | None => raise FileNotFoundError
      | Some (_, api_tests_set) =>
          acc <- mfold (run_api cfg) api_tests_set (d, None) ;;
          r <- log_final_test_status cfg (fst acc) ;;
          let '(is_test_failed, d') := r in
          (if d_cap_pass d' >? 0 then emit EvPopup else ret tt) ;;
          ret (Some is_test_failed, d')
      end
  end.

(** ** The command line and [main]

    [args] is the namespace [parser.parse_args()] returns. argparse starts
    from the declared defaults and, for each option it meets on the command
    line, runs that option's action; an accepted command line is therefore a
    sequence of [invocation]s, folded over the defaults by [parse_result]. *)
Record args : Type := mkArgs {
  a_test : option (list string);
  a_crash_generator : string;
  a_rgd_test : string;
  a_rgd_cli : string;
  a_retain : bool;
  a_api : option (list string);
  a_verbose : bool;
  a_modern_output : bool
}.

Inductive invocation : Type :=
| OptTest (v : string)             (* --test, action='append' *)
| OptCrashGenerator (v : string)   (* --crash-generator, type=str *)
| OptRgdTest (v : string)          (* --rgd-test, type=str *)
| OptRgdCli (v : string)           (* --rgd-cli, type=str *)
| OptRetain                        (* --retain, action='store_true', default=True *)
| OptApi (v : string)              (* --api, action='append' *)
| OptVerbose                       (* --verbose, action='store_true', default=False *)
| OptModernOutput.                 (* --modern-output, action='store_true', default=False *)

Definition append_opt (o : option (list string)) (v : string) : option (list string) :=
  match o with None => Some [v] | Some l => Some (app l [v]) end.

Definition apply_invocation (a : args) (i : invocation) : args :=
  match i with
  | OptTest v => mkArgs (append_opt (a_test a) v) (a_crash_generator a) (a_rgd_test a)
                   (a_rgd_cli a) (a_retain a) (a_api a) (a_verbose a) (a_modern_output a)
  | OptCrashGenerator v => mkArgs (a_test a) v (a_rgd_test a)
                   (a_rgd_cli a) (a_retain a) (a_api a) (a_verbose a) (a_modern_output a)
  | OptRgdTest v => mkArgs (a_test a) (a_crash_generator a) v
                   (a_rgd_cli a) (a_retain a) (a_api a) (a_verbose a) (a_modern_output a)
  | OptRgdCli v => mkArgs (a_test a) (a_crash_generator a) (a_rgd_test a)
                   v (a_retain a) (a_api a) (a_verbose a) (a_modern_output a)
  | OptRetain => mkArgs (a_test a) (a_crash_generator a) (a_rgd_test a)
                   (a_rgd_cli a) true (a_api a) (a_verbose a) (a_modern_output a)
  | OptApi v => mkArgs (a_test a) (a_crash_generator a) (a_rgd_test a)
                   (a_rgd_cli a) (a_retain a) (append_opt (a_api a) v) (a_verbose a) (a_modern_output a)
  | OptVerbose => mkArgs (a_test a) (a_crash_generator a) (a_rgd_test a)
                   (a_rgd_cli a) (a_retain a) (a_api a) true (a_modern_output a)
  | OptModernOutput => mkArgs (a_test a) (a_crash_generator a) (a_rgd_test a)
                   (a_rgd_cli a) (a_retain a) (a_api a) (a_verbose a) true
  end.

Variables STR_DEFAULT_CRASH_GENERATOR_PATH STR_DEFAULT_RGD_TEST_PATH STR_DEFAULT_RGD_CLI_PATH : string.

Definition default_args : args :=
  mkArgs None STR_DEFAULT_CRASH_GENERATOR_PATH STR_DEFAULT_RGD_TEST_PATH
         STR_DEFAULT_RGD_CLI_PATH true None false false.

Definition parse_result (invs : list invocation) : args :=
  fold_left apply_invocation invs default_args.

(** The folder of the script and the run's time stamp. *)
Variables script_folder time_stamp : string.

Definition out_dir : string := join script_folder ("Output-" ++ time_stamp).
Definition test_output_files_dir : string := join out_dir "RGDFiles".

(** The fields [TestConfig.set_test_config] assigns from [args]. *)
Definition config_of_args (a : args) : config :=
  mkConfig (a_retain a) (a_verbose a) (a_crash_generator a) (a_rgd_test a) (a_rgd_cli a)
    (match a_api a with
     | Some ((_ :: _) as l) => filter (fun api => existsb (String.eqb api) SUPPORTED_APIS) l
     | _ => [hd "" SUPPORTED_APIS]
     end)
    (match a_test a with
     | Some ((_ :: _) as l) => l
     | _ => [STR_DEFAULT_TEST_DESC_FILE]
     end)
    out_dir test_output_files_dir
    (join (join (parent (a_crash_generator a)) "sample_apps") "GpuTrasher").

(** [TestConfig.set_test_config]: creates the output directory and checks
    the sample-apps and GpuTrasher folders ([set_gpu_trasher_path]). *)
Definition set_test_config (a : args) : M config :=
  f <- get_fs ;;
  put_fs (set_out f (match fs_out f with Some l => Some l | None => Some [] end)) ;;
  f' <- get_fs ;;
  if negb (fs_sample_apps f') then
    log ERROR "Unable to locate the sample apps folder" ;;
    summary_info "Unable to locate the sample apps folder. Exiting..." ;;
    sys_exit 1
  else if negb (fs_gpu_trasher f') then
    log ERROR "Unable to locate the GPUTrasher folder" ;;
    summary_info "Unable to locate the GPUTrasher folder. Exiting..." ;;
    sys_exit 1
  else ret (config_of_args a).

(** [main(args)], returning also the driver object. The logger set-up only
    changes handler thresholds, which the trace does not model. *)
Definition main_run (a : args) : M (option bool * driver) :=
  cfg <- set_test_config a ;;
  run_tests cfg new_driver.

(** [main(args)] *)
Definition main (a : args) : M (option bool) :=
  r <- main_run a ;;
  ret (fst r).

End Harness.

(** The exit status of the script: [sys.exit(1)] when [main] returns a true
    value, the code of an explicit exit, 1 for an unhandled exception, 0
    otherwise. (The module-level exits when the default RGD or crash
    generator package is missing happen before any of this.) *)
Definition exit_status {A} (o : outcome (option bool * A)) : Z :=
  match o with
  | Ret (Some true, _) _ => 1
  | Ret _ _ => 0
  | Exit c _ => c
  | Raise _ _ => 1
  end.

(** A case counts as failed in the final summary when its capture failed,
    or its capture passed and its backend test failed. *)
Definition case_failed (c : crash_case) : bool :=
  negb (cc_capture_passed c) || negb (cc_backend_passed c).

(** Loop state whose driver has counted nothing yet. *)
Definition fresh_counters (acc : driver * option string) : Prop :=
  exists cs, fst acc = mkDriver cs 0 0 0 0.

(** [test.get("verify_crash_dump", False)] is truthy. *)
Definition verify_set (t : jobj) : bool := truthy (get t "verify_crash_dump" (JBool false)).

(** ** Sample runs

    Child processes that exit with a fixed code and leave the file system as
    it is: no crash-generator log and no dump appear. *)
Definition exec_rc (rc : Z) : list string -> fs -> proc_result :=
  fun _ f => mkProc "" "" rc f.

Definition test_decl (name : string) (case_no : Z) (verify : bool) : jobj :=
  [("test_name", JStr name); ("crash_test_case", JNum case_no);
   ("verify_crash_dump", JBool verify)].

Definition desc_a : descriptor := [("DX12", [test_decl "t1" 3 true])].
Definition desc_b : descriptor := [("DX12", [test_decl "t2" 4 true])].
Definition desc_c : descriptor := [("DX12", [test_decl "t0" 0 true])].

Definition sample_fs (apps : bool) : fs :=
  mkFS apps true [] [] None [("a.json", desc_a); ("b.json", desc_b); ("c.json", desc_c)]
       (fun _ _ => None).

Definition sample_st (apps : bool) : st := mkSt (sample_fs apps) [].

(** [TestRunner.py --test f1 --test f2 ...] *)
Definition sample_args (files : list string) : args :=
  parse_result "cg" "rt" "cli" (map OptTest files).

Definition sample_cfg (files : list string) : config :=
  config_of_args "sf" "ts" (sample_args files).

Definition sample_run (rc : Z) (apps : bool) (files : list string)
    : outcome (option bool * driver) :=
  main_run (exec_rc rc) "sf" "ts" (sample_args files) (sample_st apps).

(** The child processes and the warnings of a trace. *)
Definition execs (tr : list event) : list (list string) :=
  flat_map (fun e => match e with EvExec c => [c] | _ => [] end) tr.

Definition warnings (tr : list event) : list string :=
  flat_map (fun e => match e with
                     | EvLog l m => if l =? WARNING then [m] else []
                     | _ => []
                     end) tr.

Definition ret_val {A} (dflt : A) (o : outcome A) : A :=
  match o with Ret a _ => a | _ => dflt end.

Definition ret_st {A} (o : outcome A) : st :=
  match o with Ret _ s | Exit _ s | Raise _ s => s end.

(** The case of [test_decl "t1" 3 true] before its stages run. *)
Definition sample_case : crash_case :=
  set_crashing_app_path (new_case "DX12" (JStr "t1") (JNum 3))
                        (cfg_gpu_trasher_path (sample_cfg ["a.json"])).




Definition cap_run : outcome crash_case :=
  launch_crash_generator_exe (exec_rc 1) sample_case "cg" "out" (sample_st true).
Definition cap_case := Eval vm_compute in ret_val sample_case cap_run.
Definition cap_st := Eval vm_compute in ret_st cap_run.

Definition case_run : outcome driver :=
  run_case (exec_rc 0) (sample_cfg ["a.json"]) "DX12" (test_decl "t1" 3 true) new_driver
           (sample_st true).
Definition case_driver := Eval vm_compute in ret_val new_driver case_run.
Definition case_st := Eval vm_compute in ret_st case_run.

Definition main_a := Eval vm_compute in ret_val (None, new_driver) (sample_run 0 true ["a.json"]).
Definition main_a_st := Eval vm_compute in ret_st (sample_run 0 true ["a.json"]).



(** A descriptor whose first item is of an unsupported API and declares a
    test with a falsy [verify_crash_dump]; it is skipped by [run_api]. *)
Definition desc_vk : descriptor := ("Vulkan", [test_decl "v1" 5 false]) :: desc_a.

Definition loop_prefix : outcome (driver * option string) :=
  mfold (run_api (exec_rc 0) (sample_cfg ["a.json"]))
        (app desc_vk [("DX12", [])]) (new_driver, None) (sample_st true).
Definition loop_acc := Eval vm_compute in ret_val (new_driver, None) loop_prefix.
Definition loop_st := Eval vm_compute in ret_st loop_prefix.

(** ** [get_supported_api_str] *)

(** The loop of [get_supported_api_str] over a list of API names. *)
Definition get_supported_api_str_of (apis : list string) : string :=
  fold_left (fun supported_apis api =>
               if String.eqb supported_apis "" then supported_apis ++ api
               else (supported_apis ++ ", ") ++ api) apis "".

Definition get_supported_api_str : string := get_supported_api_str_of SUPPORTED_APIS.

(** The list without its leading empty names. *)
Fixpoint skip_empty (l : list string) : list string :=
  match l with
  | EmptyString :: l' => skip_empty l'
  | _ => l
  end.

(** ** [PythonVersionValid] on [sys.version_info[0:3]] *)
Definition PythonVersionValid (major minor micro : Z) : bool :=
  3006005 <=? ((major * 1000) + minor) * 1000 + micro.

(** ** The loggers

    The levels of Python's [logging] module that the [Logger] methods use
    ([debug], [info], [warning], [error], [critical]); the custom methods
    ([test_info], ...) log at the script's own levels. *)
Definition logging_NOTSET : Z := 0.
Definition logging_DEBUG : Z := 10.
Definition logging_INFO : Z := 20.
Definition logging_WARNING : Z := 30.
Definition logging_ERROR : Z := 40.
Definition logging_CRITICAL : Z := 50.

(** A record of level [lvl] passes a logger of level [logger_level]
    ([isEnabledFor]) and is then emitted by each of its handlers whose level
    is at most [lvl]. *)
Definition handles (logger_level handler_level lvl : Z) : bool :=
  (logger_level <=? lvl) && (handler_level <=? lvl).

(** The methods of [Logger]. *)
Inductive logger_method : Type :=
| LM_debug | LM_test_info | LM_info | LM_test_msg | LM_test_pass
| LM_test_fail | LM_warning | LM_error | LM_critical | LM_test_result.

Definition method_level (m : logger_method) : Z :=
  match m with
  | LM_debug => logging_DEBUG
  | LM_test_info => TEST_INFO
  | LM_info => logging_INFO
  | LM_test_msg => TEST_MSG
  | LM_test_pass => TEST_PASS
  | LM_test_fail => TEST_FAIL
  | LM_warning => logging_WARNING
  | LM_error => logging_ERROR
  | LM_critical => logging_CRITICAL
  | LM_test_result => TEST_RESULT
  end.

(** [Logger]: the level of [self.logger], of its console handler, and of its
    file handler once [set_file_handler] added one. *)
Record modern_logger : Type := mkModern {
  ml_level : Z;
  ml_console : Z;
  ml_file : option Z
}.

(** [Logger.__init__] *)
Definition Logger_init : modern_logger := mkModern logging_DEBUG logging_WARNING None.

(** [Logger.set_file_handler] *)
Definition Logger_set_file_handler (l : modern_logger) : modern_logger :=
  mkModern (ml_level l) (ml_console l) (Some logging_DEBUG).

(** [Logger.set_console_verbosity] *)
Definition Logger_set_console_verbosity (l : modern_logger) (is_verbose : bool) : modern_logger :=
  if is_verbose then mkModern (ml_level l) logging_INFO (ml_file l) else l.

(** [Logger.disable_modern_logger] *)
Definition Logger_disable_modern_logger (l : modern_logger) : modern_logger :=
  mkModern (logging_CRITICAL + 1) (logging_CRITICAL + 1) (ml_file l).

Definition console_prints (l : modern_logger) (m : logger_method) : bool :=
  handles (ml_level l) (ml_console l) (method_level m).

Definition file_prints (l : modern_logger) (m : logger_method) : bool :=
  match ml_file l with
  | Some h => handles (ml_level l) h (method_level m)
  | None => false
  end.

(** [LegacyLogger]: the levels of the capture, backend and summary loggers
    and of the summary logger's console handler, and whether
    [set_file_handler] added the three file handlers (of level [NOTSET]). *)
Record legacy_logger : Type := mkLegacy {
  lg_capture : Z;
  lg_backend : Z;
  lg_summary : Z;
  lg_console : Z;
  lg_files : bool
}.

(** [LegacyLogger.__init__] *)
Definition LegacyLogger_init : legacy_logger :=
  mkLegacy logging_INFO logging_INFO logging_INFO logging_INFO false.

(** [LegacyLogger.set_file_handler] *)
Definition LegacyLogger_set_file_handler (l : legacy_logger) : legacy_logger :=
  mkLegacy (lg_capture l) (lg_backend l) (lg_summary l) (lg_console l) true.

(** [LegacyLogger.disable_legacy_logger] *)
Definition disable_legacy_logger (l : legacy_logger) : legacy_logger :=
  mkLegacy (logging_CRITICAL + 1) (logging_CRITICAL + 1) (logging_CRITICAL + 1)
           (logging_CRITICAL + 1) (lg_files l).

(** [summary_info], [capture_info] and [backend_info] log at INFO. *)
Definition summary_console_prints (l : legacy_logger) : bool :=
  handles (lg_summary l) (lg_console l) logging_INFO.
Definition summary_file_prints (l : legacy_logger) : bool :=
  lg_files l && handles (lg_summary l) logging_NOTSET logging_INFO.
Definition capture_file_prints (l : legacy_logger) : bool :=
  lg_files l && handles (lg_capture l) logging_NOTSET logging_INFO.
Definition backend_file_prints (l : legacy_logger) : bool :=
  lg_files l && handles (lg_backend l) logging_NOTSET logging_INFO.

(** The logger set-up of [main], from the module-level [logger] and
    [legacy_logger] as created at import. *)
Definition main_loggers (modern_output verbose : bool) : modern_logger * legacy_logger :=
  if modern_output then
    (Logger_set_console_verbosity (Logger_set_file_handler Logger_init) verbose,
     disable_legacy_logger LegacyLogger_init)
  else
    (Logger_disable_modern_logger Logger_init, LegacyLogger_set_file_handler LegacyLogger_init).

(** ** The cases a descriptor declares *)

(** A case as the summary identifies it: API, test name and case number. *)
Definition case_key (c : crash_case) : string * jval * jval := (cc_api c, cc_name c, cc_case_no c).

Definition decl_key (api : string) (t : jobj) : string * jval * jval :=
  (api, get t "test_name" (JStr "NULL"), get t "crash_test_case" JNull).

(** A declaration whose case runs: [verify_crash_dump] and [crash_test_case]
    are truthy. *)
Definition runs_case (t : jobj) : bool :=
  verify_set t && truthy (get t "crash_test_case" (JBool false)).

Definition declared_cases (items : descriptor) : list (string * jval * jval) :=
  flat_map (fun it => if existsb (String.eqb (fst it)) SUPPORTED_APIS
                      then map (decl_key (fst it)) (filter runs_case (snd it)) else []) items.

(** The values of the options of one kind on a command line, in order. *)
Definition test_values (invs : list invocation) : list string :=
  flat_map (fun i => match i with OptTest v => [v] | _ => [] end) invs.
Definition api_values (invs : list invocation) : list string :=
  flat_map (fun i => match i with OptApi v => [v] | _ => [] end) invs.

(** ** More sample states and runs *)

(** The identity fields a case keeps through its stages. *)
Definition same_id (c c' : crash_case) : Prop :=
  cc_api c' = cc_api c /\ cc_name c' = cc_name c /\ cc_case_no c' = cc_case_no c /\
  cc_page_fault c' = cc_page_fault c /\ cc_crashing_app_path c' = cc_crashing_app_path c.

(** The configuration with another [test_api]. *)
Definition cfg_with_api (cfg : config) (l : list string) : config :=
  mkConfig (cfg_retain cfg) (cfg_verbose cfg) (cfg_cg_exe cfg) (cfg_rgd_test cfg) (cfg_rgd_cli cfg)
           l (cfg_descriptors cfg) (cfg_out_dir cfg) (cfg_out_files_dir cfg) (cfg_gpu_trasher_path cfg).

(** The values of the other options on a command line, in order. *)
Definition cg_values (invs : list invocation) : list string :=
  flat_map (fun i => match i with OptCrashGenerator v => [v] | _ => [] end) invs.
Definition rgd_test_values (invs : list invocation) : list string :=
  flat_map (fun i => match i with OptRgdTest v => [v] | _ => [] end) invs.
Definition rgd_cli_values (invs : list invocation) : list string :=
  flat_map (fun i => match i with OptRgdCli v => [v] | _ => [] end) invs.
Definition is_verbose_opt (i : invocation) : bool :=
  match i with OptVerbose => true | _ => false end.

(** [o] extended by the values [l]: what successive [append] actions give. *)
Definition opt_app (o : option (list string)) (l : list string) : option (list string) :=
  match l with
  | [] => o
  | _ :: _ => Some (match o with None => l | Some l0 => app l0 l end)
  end.

(** [run_tests] on the sample descriptor [a.json]. *)
Definition tests_run : outcome (option bool * driver) :=
  run_tests (exec_rc 0) (sample_cfg ["a.json"]) new_driver (sample_st true).
Definition tests_a := Eval vm_compute in ret_val (None, new_driver) tests_run.
Definition tests_a_st := Eval vm_compute in ret_st tests_run.

(** * Proofs *)

(** ** The monad *)

Lemma bind_Ret {A B} (m : M A) (k : A -> M B) s b s' :
  bind m k s = Ret b s' -> exists a s1, m s = Ret a s1 /\ k a s1 = Ret b s'.
Proof.
  unfold bind. destruct (m s) as [a s1|c s1|e s1]; intro H; try discriminate.
  eauto.
Qed.

Lemma mfold_app {A B} (f : A -> B -> M A) xs ys a s :
  mfold f (app xs ys) a s = bind (mfold f xs a) (mfold f ys) s.
Proof.
  revert a s. induction xs as [|x xs IH]; intros a s; simpl.
  - reflexivity.
  - unfold bind. destruct (f a x s) as [a1 s1|c s1|e s1]; try reflexivity.
    specialize (IH a1 s1). unfold bind in IH. exact IH.
Qed.

(** An invariant of the accumulator of [mfold]. *)
Lemma mfold_inv {A B} (P : A -> Prop) (f : A -> B -> M A) :
  (forall a x s a' s', P a -> f a x s = Ret a' s' -> P a') ->
  forall xs a s a' s', P a -> mfold f xs a s = Ret a' s' -> P a'.
Proof.
  intros Hstep xs. induction xs as [|x xs IH]; intros a s a' s' Ha H; simpl in H.
  - inversion H; subst; assumption.
  - apply bind_Ret in H. destruct H as (a1 & s1 & H1 & H2).
    eapply IH; [|exact H2]. eapply Hstep; eassumption.
Qed.

Ltac inv_binds :=
  repeat match goal with
         | H : bind _ _ _ = Ret _ _ |- _ =>
             apply bind_Ret in H; destruct H as (? & ? & ? & H)
         | H : ret _ _ = Ret _ _ |- _ => inversion H; subst; clear H
         | H : Ret _ _ = Ret _ _ |- _ => inversion H; subst; clear H
         end.

Lemma emit_Ret e s u s' : emit e s = Ret u s' -> s_fs s' = s_fs s.
Proof. unfold emit. intro H. inversion H. reflexivity. Qed.

(** ** The final counters *)

Definition count_cap_fail (cs : list crash_case) : Z :=
  Z.of_nat (List.length (filter (fun c => negb (cc_capture_passed c)) cs)).
Definition count_be_fail (cs : list crash_case) : Z :=
  Z.of_nat (List.length (filter (fun c => cc_capture_passed c && negb (cc_backend_passed c)) cs)).

Lemma fold_tally_counts cs d :
  d_cases (fold_left tally cs d) = d_cases d /\
  d_cap_fail (fold_left tally cs d) = d_cap_fail d + count_cap_fail cs /\
  d_be_fail (fold_left tally cs d) = d_be_fail d + count_be_fail cs.
Proof.
  revert d. induction cs as [|c cs IH]; intro d; simpl.
  - unfold count_cap_fail, count_be_fail; simpl. repeat split; lia.
  - destruct (IH (tally d c)) as (H1 & H2 & H3). rewrite H1, H2, H3.
    unfold count_cap_fail, count_be_fail, tally in *; simpl.
    destruct (cc_capture_passed c), (cc_backend_passed c); simpl;
      repeat split; try reflexivity; rewrite ?Nat2Z.inj_succ; lia.
Qed.

Lemma counts_zero_iff cs :
  (count_cap_fail cs = 0 /\ count_be_fail cs = 0) <-> existsb case_failed cs = false.
Proof.
  unfold count_cap_fail, count_be_fail.
  induction cs as [|c cs IH]; simpl.
  - tauto.
  - unfold case_failed at 1.
    destruct (cc_capture_passed c), (cc_backend_passed c); simpl;
      rewrite ?Nat2Z.inj_succ; try rewrite <- IH; split; intro H; try discriminate; lia.
Qed.

Definition lfts_failed (d : driver) : bool :=
  let d' := fold_left tally (d_cases d) d in
  negb (d_cap_fail d' =? 0) || negb (d_be_fail d' =? 0).

(** What [log_final_test_status] does: it always returns, with the failure
    flag of the counters; its only file-system effect is the removal of the
    output directory, exactly when nothing failed and retention is off. *)
Lemma log_final_test_status_spec cfg d s :
  exists tr s',
    log_final_test_status cfg d s = Ret (lfts_failed d, fold_left tally (d_cases d) d) s' /\
    s_trace s' = app (s_trace s) tr /\
    s_fs s' = (if lfts_failed d || cfg_retain cfg then s_fs s else set_out (s_fs s) None) /\
    (forall p, In (EvRmtree p) tr <->
               lfts_failed d = false /\ cfg_retain cfg = false /\ p = cfg_out_files_dir cfg).
Proof.
  unfold log_final_test_status, lfts_failed.
  destruct (negb (d_cap_fail (fold_left tally (d_cases d) d) =? 0)
            || negb (d_be_fail (fold_left tally (d_cases d) d) =? 0)) eqn:E.
  - do 2 eexists. split; [reflexivity|].
    split; [simpl; rewrite <- !app_assoc; reflexivity|].
    split; [reflexivity|].
    intro p; simpl. split; [intuition congruence | intros (H & _); discriminate].
  - destruct (cfg_retain cfg) eqn:R; simpl.
    + do 2 eexists. split; [reflexivity|].
      split; [simpl; rewrite <- !app_assoc; reflexivity|].
      split; [reflexivity|].
      intro p; simpl. split; [intuition congruence | intros (_ & H & _); discriminate].
    + do 2 eexists. split; [reflexivity|].
      split; [simpl; rewrite <- !app_assoc; reflexivity|].
      split; [reflexivity|].
      intro p; simpl. split; [intuition congruence | intros (_ & _ & ->); tauto].
Qed.

Lemma lfts_failed_cases cs cp bp :
  lfts_failed (mkDriver cs cp 0 bp 0) = existsb case_failed cs.
Proof.
  unfold lfts_failed. simpl.
  destruct (fold_tally_counts cs (mkDriver cs cp 0 bp 0)) as (_ & H1 & H2).
  rewrite H1, H2. simpl.
  destruct (existsb case_failed cs) eqn:E.
  - destruct (count_cap_fail cs =? 0) eqn:E1, (count_be_fail cs =? 0) eqn:E2; try reflexivity.
    apply Z.eqb_eq in E1. apply Z.eqb_eq in E2.
    assert (existsb case_failed cs = false) by (apply counts_zero_iff; auto). congruence.
  - apply counts_zero_iff in E. destruct E as [-> ->]. reflexivity.
Qed.

Lemma fold_invocations_retain invs :
  forall a, a_retain a = true -> a_retain (fold_left apply_invocation invs a) = true.
Proof.
  induction invs as [|i invs IH]; intros a Ha; simpl.
  - exact Ha.
  - apply IH. destruct i; simpl; auto.
Qed.

(** ** C7: the logging levels *)

(** C7 (counterexample). The order debug < test-info < info < test-msg <
    test-pass < warning < test-fail < error < test-result < critical does not
    hold for the constants of the script: TEST_PASS is 32 and WARNING is 30. *)
Lemma logging_levels_spec_order_fails :
  ~ (DEBUG < TEST_INFO /\ TEST_INFO < INFO /\ INFO < TEST_MSG /\ TEST_MSG < TEST_PASS /\
     TEST_PASS < WARNING /\ WARNING < TEST_FAIL /\ TEST_FAIL < ERROR /\
     ERROR < TEST_RESULT /\ TEST_RESULT < CRITICAL).
Proof. unfold TEST_PASS, WARNING. lia. Qed.

(** C7 (amended). The numeric levels are strictly increasing in the order
    debug < test-info < info < test-msg < warning < test-pass < test-fail <
    error < test-result < critical: test-pass lies strictly above warning. *)
Theorem logging_levels_order :
  DEBUG < TEST_INFO /\ TEST_INFO < INFO /\ INFO < TEST_MSG /\ TEST_MSG < WARNING /\
  WARNING < TEST_PASS /\ TEST_PASS < TEST_FAIL /\ TEST_FAIL < ERROR /\
  ERROR < TEST_RESULT /\ TEST_RESULT < CRITICAL.
Proof.
  unfold DEBUG, TEST_INFO, INFO, TEST_MSG, WARNING, TEST_PASS, TEST_FAIL, ERROR,
    TEST_RESULT, CRITICAL. lia.
Qed.

(** ** C6: retention of the output directory *)

(** C6. After the summary, with the counters [run_tests] hands over (no
    failure counted yet): when some case failed its capture or backend test
    the output directory is kept whatever the retention flag; when none
    failed it is removed if the flag is false and kept if it is true. *)
Theorem log_final_test_status_retention cfg cs cp bp s :
  exists tr b d' s',
    log_final_test_status cfg (mkDriver cs cp 0 bp 0) s = Ret (b, d') s' /\
    s_trace s' = app (s_trace s) tr /\
    (existsb case_failed cs = true ->
       s_fs s' = s_fs s /\ forall p, ~ In (EvRmtree p) tr) /\
    (existsb case_failed cs = false -> cfg_retain cfg = false ->
       fs_out (s_fs s') = None /\ In (EvRmtree (cfg_out_files_dir cfg)) tr) /\
    (existsb case_failed cs = false -> cfg_retain cfg = true ->
       s_fs s' = s_fs s /\ forall p, ~ In (EvRmtree p) tr).
Proof.
  destruct (log_final_test_status_spec cfg (mkDriver cs cp 0 bp 0) s)
    as (tr & s' & Hrun & Htr & Hfs & Hrm).
  rewrite lfts_failed_cases in Hfs, Hrm.
  exists tr, (existsb case_failed cs), (fold_left tally cs (mkDriver cs cp 0 bp 0)), s'.
  rewrite lfts_failed_cases in Hrun.
  split; [exact Hrun|]. split; [exact Htr|].
  repeat split; intros; subst.
  - rewrite Hfs, H. reflexivity.
  - rewrite Hrm. intros (H' & _). congruence.
  - rewrite Hfs, H, H0. reflexivity.
  - apply Hrm. auto.
  - rewrite Hfs, H, H0. reflexivity.
  - rewrite Hrm. intros (_ & H' & _). congruence.
Qed.

(** ** C8: the [--retain] option *)

(** C8. Whatever options an accepted command line holds, the parsed
    [--retain] is true, and the summary step run with the configuration built
    from it never removes anything: the output directory stays. *)
Theorem retain_option_always_true dcg drt dcli invs :
  a_retain (parse_result dcg drt dcli invs) = true /\
  forall sf ts d s,
    exists r s',
      log_final_test_status (config_of_args sf ts (parse_result dcg drt dcli invs)) d s = Ret r s' /\
      s_fs s' = s_fs s /\
      forall p, In (EvRmtree p) (s_trace s') -> In (EvRmtree p) (s_trace s).
Proof.
  assert (Hr : a_retain (parse_result dcg drt dcli invs) = true)
    by (apply fold_invocations_retain; reflexivity).
  split; [exact Hr|].
  intros sf ts d s.
  destruct (log_final_test_status_spec (config_of_args sf ts (parse_result dcg drt dcli invs)) d s)
    as (tr & s' & Hrun & Htr & Hfs & Hrm).
  simpl in Hfs, Hrm. rewrite Hr in Hfs, Hrm.
  exists (lfts_failed d, fold_left tally (d_cases d) d), s'.
  split; [exact Hrun|]. split.
  - rewrite Hfs. destruct (lfts_failed d); reflexivity.
  - intros p Hp. rewrite Htr in Hp. apply in_app_or in Hp. destruct Hp as [Hp|Hp]; [exact Hp|].
    apply Hrm in Hp. destruct Hp as (_ & H & _). discriminate.
Qed.

(** ** The capture stage *)

Lemma execute_command_Ret ex cmd s r s' :
  execute_command ex cmd s = Ret r s' ->
  let p := ex cmd (s_fs s) in r = (p_out p, p_err p, p_rc p).
Proof.
  unfold execute_command, get_fs, put_fs. intro H. inv_binds.
  apply emit_Ret in H0. rewrite H0. reflexivity.
Qed.

Lemma set_dump_path_twice c p q : set_dump_path (set_dump_path c p) q = set_dump_path c q.
Proof. destruct c; reflexivity. Qed.

Lemma set_dump_path_same c : set_dump_path c (cc_dump_path c) = c.
Proof. destruct c; reflexivity. Qed.

(** [move_generated_crash_dump] changes no field of the case but the dump
    path. *)
Lemma move_generated_crash_dump_case c cg out s b c' s' :
  move_generated_crash_dump c cg out s = Ret (b, c') s' ->
  exists p, c' = set_dump_path c p.
Proof.
  unfold move_generated_crash_dump, get_fs. intro H. inv_binds.
  destruct (filter is_run_dir (fs_cg_dirs (s_fs x0))) as [|d ds].
  - inv_binds. exists (cc_dump_path c'). symmetry. apply set_dump_path_same.
  - inv_binds.
    match goal with
    | Hf : mfold (dump_step _ _ _) _ _ _ = Ret _ _ |- _ =>
        refine (mfold_inv (fun acc => exists p, snd acc = set_dump_path c p) _ _ _ _ _ _ _ _ Hf)
    end.
    + intros [b0 c0] name s0 [b1 c1] s1 [p Hp] Hs. simpl in Hp. subst c0.
      unfold dump_step in Hs.
      destruct (contains (case_string c) name).
      * inv_binds.
        match type of Hs with
        | (if ?b then _ else _) _ = _ => destruct b
        end.
        -- inv_binds. simpl. eexists. apply set_dump_path_twice.
        -- unfold sys_exit in *. inv_binds. discriminate.
      * inv_binds. simpl. eauto.
    + simpl. exists (cc_dump_path c). symmetry. apply set_dump_path_same.
Qed.

(** The shape of the case [launch_crash_generator_exe] returns: the flags
    returned by the two artifact locators are stored, and the capture flag
    is [return_code == 0 or is_crash_dump_generated]. *)
Lemma launch_crash_generator_exe_shape ex c exe out s c' s' :
  launch_crash_generator_exe ex c exe out s = Ret c' s' ->
  let rc := p_rc (ex [exe; get_gtest_filter c] (s_fs s)) in
  exists app p dump s1 s2 s3,
    move_crash_generator_log c s1 = Ret app s2 /\
    move_generated_crash_dump (set_app_crashed c app) (parent exe) out s2
      = Ret (dump, set_dump_path (set_app_crashed c app) p) s3 /\
    c' = set_capture_passed (set_dump_generated (set_dump_path (set_app_crashed c app) p) dump)
                            ((rc =? 0) || dump).
Proof.
  unfold launch_crash_generator_exe, log, summary_info. intro H. inv_binds.
  apply execute_command_Ret in H2. apply emit_Ret in H0, H1. subst x3.
  cbv beta iota in H. rewrite H1, H0 in H. inv_binds.
  match goal with
  | Hm : move_generated_crash_dump _ _ _ _ = Ret ?r _ |- _ => destruct r as [dump c2]
  end.
  cbv beta iota in H.
  match goal with
  | Hm : move_generated_crash_dump _ _ _ _ = Ret _ _ |- _ =>
      pose proof (move_generated_crash_dump_case _ _ _ _ _ _ _ Hm) as [p Hp]; subst c2
  end.
  match goal with
  | Hl : move_crash_generator_log _ _ = Ret ?a _ |- _ => exists a, p, dump
  end.
  do 3 eexists. split; [eassumption|]. split; [eassumption|].
  match type of H with
  | context [if ?b then _ else _] => destruct b eqn:E
  end.
  - inv_binds. simpl in E. rewrite E. reflexivity.
  - destruct (cc_app_crashed _); inv_binds; simpl in E; rewrite E; reflexivity.
Qed.

(** C2. The capture outcome of [launch_crash_generator_exe] follows the
    decision table: passed when the crash generator's exit code is 0 or a
    dump was generated; failed when the exit code is non-zero and no dump was
    generated, whether a matching crash-generator log was found
    ([is_app_crashed] true) or not. The two flags are the values the log and
    dump locators returned. *)
Theorem launch_crash_generator_exe_capture_table ex c exe out s c' s' :
  launch_crash_generator_exe ex c exe out s = Ret c' s' ->
  let rc := p_rc (ex [exe; get_gtest_filter c] (s_fs s)) in
  ((rc = 0 \/ cc_dump_generated c' = true) -> cc_capture_passed c' = true) /\
  (rc <> 0 -> cc_dump_generated c' = false -> cc_app_crashed c' = true ->
     cc_capture_passed c' = false) /\
  (rc <> 0 -> cc_dump_generated c' = false -> cc_app_crashed c' = false ->
     cc_capture_passed c' = false) /\
  (exists s1 s2 s3 c2,
     move_crash_generator_log c s1 = Ret (cc_app_crashed c') s2 /\
     move_generated_crash_dump (set_app_crashed c (cc_app_crashed c')) (parent exe) out s2
       = Ret (cc_dump_generated c', c2) s3).
Proof.
  intro H. cbv zeta.
  destruct (launch_crash_generator_exe_shape ex c exe out s c' s' H)
    as (app & p & dump & s1 & s2 & s3 & H1 & H2 & ->).
  simpl.
  destruct (p_rc (ex [exe; get_gtest_filter c] (s_fs s)) =? 0) eqn:E;
    [apply Z.eqb_eq in E | apply Z.eqb_neq in E].
  - repeat split; intros; try congruence.
    exists s1, s2, s3, (set_dump_path (set_app_crashed c app) p). auto.
  - destruct dump; simpl; repeat split; intros; try congruence;
      try (destruct H0; congruence);
      exists s1, s2, s3, (set_dump_path (set_app_crashed c app) p); auto.
Qed.

(** ** The driver loop *)

Lemma launch_rgd_test_exe_case ex c rt s c' s' :
  launch_rgd_test_exe ex c rt s = Ret c' s' -> exists b, c' = set_backend_passed c b.
Proof.
  unfold launch_rgd_test_exe, log. intro H. inv_binds.
  destruct (cc_dump_path c); [|unfold raise in H; discriminate].
  inv_binds. destruct x3 as [[o e] rc]. cbv beta iota in H.
  destruct (rc =? 0); inv_binds; eauto.
Qed.

(** The case [run_case] appends: its backend flag is still the initial
    [True] unless the backend stage ran, which needs a dump. *)
Lemma run_case_Ret ex cfg api t d s d' s' :
  run_case ex cfg api t d s = Ret d' s' ->
  exists c, d' = add_case d c /\
    (cc_capture_passed c = true -> cc_dump_generated c = false -> cc_backend_passed c = true).
Proof.
  unfold run_case. intro H. inv_binds.
  match goal with
  | Hl : launch_crash_generator_exe _ _ _ _ _ = Ret ?c3 _ |- _ =>
      destruct (launch_crash_generator_exe_shape _ _ _ _ _ _ _ Hl)
        as (app & p & dump & s1 & s2 & s3 & _ & _ & Hc3)
  end.
  match goal with
  | Hc : (if cc_capture_passed ?c3 then _ else _) _ = Ret ?c4 _ |- _ =>
      exists c4; split; [reflexivity|];
      destruct (cc_capture_passed c3) eqn:Ecap;
      [destruct (cc_dump_generated c3) eqn:Edump|]
  end.
  - inv_binds.
    match goal with
    | Hb : launch_rgd_test_exe _ _ _ _ = Ret _ _ |- _ =>
        destruct (launch_rgd_test_exe_case _ _ _ _ _ _ Hb) as [b ->]
    end.
    destruct x3; simpl in *. intros _ E. congruence.
  - unfold summary_info in *. inv_binds. intros _ _. subst. simpl.
    destruct (truthy (get t "page_fault_case" (JBool false))); reflexivity.
  - inv_binds. intros E. congruence.
Qed.

(** ** C3: a skipped backend stage in the counters *)

(** C3 (amended). When a case's capture passed and no dump was generated
    (backend stage skipped), its backend flag keeps its initial value
    [True]: the counting loop of [log_final_test_status] adds one to
    [count_backend_tests_passed] for it and leaves
    [count_backend_tests_failed] unchanged. *)
Theorem skipped_backend_counted_as_passed ex cfg api t d s d' s' :
  run_case ex cfg api t d s = Ret d' s' ->
  exists c, d' = add_case d c /\
    (cc_capture_passed c = true -> cc_dump_generated c = false ->
       forall d0, d_be_pass (tally d0 c) = d_be_pass d0 + 1 /\
                  d_be_fail (tally d0 c) = d_be_fail d0).
Proof.
  intro H. destruct (run_case_Ret ex cfg api t d s d' s' H) as (c & Hd & Hb).
  exists c. split; [exact Hd|].
  intros Hcap Hdump d0. unfold tally. rewrite Hcap, (Hb Hcap Hdump). simpl. lia.
Qed.

Lemma process_test_Ret ex cfg api d tn t s d' tn' s' :
  process_test ex cfg api (d, tn) t s = Ret (d', tn') s' ->
  (d' = d \/ exists c, d' = add_case d c) /\
  (truthy (get t "verify_crash_dump" (JBool false)) = true -> tn' = tn).
Proof.
  unfold process_test, log. intro H.
  destruct (truthy (get t "verify_crash_dump" (JBool false))) eqn:Ev; simpl in H.
  - destruct (truthy (get t "crash_test_case" (JBool false))) eqn:Ec; simpl in H.
    + inv_binds.
      match goal with
      | Hr : run_case _ _ _ _ _ _ = Ret _ _ |- _ =>
          destruct (run_case_Ret _ _ _ _ _ _ _ _ Hr) as (c & -> & _)
      end.
      split; [right; eauto | auto].
    + destruct tn; [|unfold raise in H; discriminate].
      inv_binds. split; auto.
  - inv_binds. split; [auto | discriminate].
Qed.

Lemma run_api_fresh ex cfg acc item s acc' s' :
  fresh_counters acc -> run_api ex cfg acc item s = Ret acc' s' -> fresh_counters acc'.
Proof.
  destruct item as [api tests]. unfold run_api, log. intros Hf H. inv_binds.
  destruct (existsb (String.eqb api) SUPPORTED_APIS).
  - unfold run_test_set in H.
    refine (mfold_inv fresh_counters _ _ _ _ _ _ _ Hf H).
    intros [d tn] t s0 [d1 tn1] s1 [cs Hcs] Hs. simpl in Hcs. subst d.
    destruct (process_test_Ret _ _ _ _ _ _ _ _ _ _ Hs) as ([-> | [c ->]] & _).
    + exists cs. reflexivity.
    + exists (app cs [c]). reflexivity.
  - inv_binds. exact Hf.
Qed.

(** ** C4: the exit status *)

Lemma set_test_config_Ret sf ts a s cfg s' :
  set_test_config sf ts a s = Ret cfg s' -> cfg = config_of_args sf ts a.
Proof.
  unfold set_test_config, get_fs, put_fs, log, summary_info, sys_exit. intro H. inv_binds.
  destruct (negb (fs_sample_apps _)); [inv_binds; discriminate|].
  destruct (negb (fs_gpu_trasher _)); [inv_binds; discriminate|].
  inv_binds. reflexivity.
Qed.

Lemma config_descriptors_cons sf ts a :
  exists file rest, cfg_descriptors (config_of_args sf ts a) = file :: rest.
Proof.
  unfold config_of_args. simpl.
  destruct (a_test a) as [[|x l]|]; eauto.
Qed.

(** How a run that returns ends: [run_tests] returns the flag of
    [log_final_test_status] computed from counters that start at zero. *)
Lemma main_run_Ret ex sf ts a s r s' :
  main_run ex sf ts a s = Ret r s' ->
  exists cs, r = (Some (lfts_failed (mkDriver cs 0 0 0 0)),
                  fold_left tally cs (mkDriver cs 0 0 0 0)).
Proof.
  unfold main_run. intro H. inv_binds.
  match goal with
  | Hc : set_test_config _ _ _ _ = Ret _ _ |- _ => apply set_test_config_Ret in Hc; subst
  end.
  destruct (config_descriptors_cons sf ts a) as (file & rest & Hd).
  unfold run_tests, get_fs, log in H. rewrite Hd in H. inv_binds.
  match type of H with
  | (match ?x with Some _ => _ | None => _ end) _ = _ =>
      destruct x as [[fname desc]|]; [|unfold raise in H; discriminate]
  end.
  inv_binds.
  match goal with
  | Hm : mfold (run_api _ _) _ _ _ = Ret ?acc _ |- _ =>
      assert (Hf : fresh_counters acc);
      [ refine (mfold_inv fresh_counters _ _ _ _ _ _ _ _ Hm);
        [ intros; eapply run_api_fresh; eassumption | exists []; reflexivity ] | ];
      destruct Hf as [cs Hcs]; rewrite Hcs in *
  end.
  match goal with
  | Hl : log_final_test_status _ _ ?s1 = Ret ?r0 _ |- _ =>
      destruct (log_final_test_status_spec (config_of_args sf ts a) (mkDriver cs 0 0 0 0) s1)
        as (tr & s2 & Hrun & _); rewrite Hrun in Hl; inversion Hl; subst r0
  end.
  cbv beta iota in H. inv_binds.
  match goal with
  | Hp : (if ?b then _ else _) _ = _ |- _ => destruct b; unfold emit in Hp; inv_binds
  end; exists cs; reflexivity.
Qed.

(** C4 (amended). For a run that returns from [main] (not ended by the
    [exit(1)] of a missing sample-apps or GpuTrasher folder, the
    [sys.exit(1)] of a dump count mismatch, or an unhandled exception):
    [main] returns the value of [log_final_test_status], true exactly when
    [count_capture_tests_failed != 0] or [count_backend_tests_failed != 0];
    the exit status is 1 when some case of the run failed its capture or
    backend test, and 0 otherwise. *)
Theorem main_exit_status ex sf ts a s r s' :
  main_run ex sf ts a s = Ret r s' ->
  fst r = Some (negb (d_cap_fail (snd r) =? 0) || negb (d_be_fail (snd r) =? 0)) /\
  (exit_status (Ret r s') = 1 <-> existsb case_failed (d_cases (snd r)) = true) /\
  (exit_status (Ret r s') = 0 <-> existsb case_failed (d_cases (snd r)) = false).
Proof.
  intro H. destruct (main_run_Ret ex sf ts a s r s' H) as [cs ->].
  simpl. destruct (fold_tally_counts cs (mkDriver cs 0 0 0 0)) as (Hc & _ & _).
  rewrite Hc. simpl. split; [reflexivity|].
  rewrite <- (lfts_failed_cases cs 0 0).
  unfold lfts_failed. simpl.
  destruct (negb (d_cap_fail (fold_left tally cs (mkDriver cs 0 0 0 0)) =? 0)
            || negb (d_be_fail (fold_left tally cs (mkDriver cs 0 0 0 0)) =? 0));
    simpl; split; split; intro; congruence.
Qed.

(** ** C5: moving the crash dump *)

Lemma mfold_inv_in {A B} (P : A -> st -> Prop) (f : A -> B -> M A) xs :
  (forall a x s a' s', In x xs -> P a s -> f a x s = Ret a' s' -> P a' s') ->
  forall a s a' s', P a s -> mfold f xs a s = Ret a' s' -> P a' s'.
Proof.
  induction xs as [|x xs IH]; intros Hstep a s a' s' Ha H; simpl in H.
  - inversion H; subst; assumption.
  - apply bind_Ret in H. destruct H as (a1 & s1 & H1 & H2).
    eapply IH; [intros; eapply Hstep; eauto using in_cons | | exact H2].
    eapply Hstep; [left; reflexivity | exact Ha | exact H1].
Qed.


















(** ** C10: the unbound [test_name] *)

Lemma run_test_set_tn ex cfg api tests a s a' s' :
  forallb verify_set tests = true ->
  run_test_set ex cfg api tests a s = Ret a' s' -> snd a' = snd a.
Proof.
  intros Hv H. unfold run_test_set in H.
  refine (mfold_inv_in (fun acc _ => snd acc = snd a) _ _ _ _ _ _ _ eq_refl H).
  intros [d0 tn0] t s0 [d1 tn1] s1 Hin Htn Hs. simpl in *.
  rewrite forallb_forall in Hv.
  destruct (process_test_Ret _ _ _ _ _ _ _ _ _ _ Hs) as [_ Htn'].
  rewrite Htn'; [exact Htn | apply (Hv t Hin)].
Qed.

Lemma run_api_tn ex cfg a item s a' s' :
  negb (existsb (String.eqb (fst item)) SUPPORTED_APIS) || forallb verify_set (snd item) = true ->
  run_api ex cfg a item s = Ret a' s' -> snd a' = snd a.
Proof.
  destruct item as [api tests]. unfold run_api, log. intros Hv H. cbn [fst snd] in Hv. inv_binds.
  destruct (existsb (String.eqb api) SUPPORTED_APIS) eqn:Hs; rewrite ?Hs in Hv; simpl in Hv.
  - eapply run_test_set_tn; eassumption.
  - inv_binds. reflexivity.
Qed.

(** C10. In the loop of [run_tests] over the [api, test_set] items of a
    descriptor, the local [test_name] starts unbound. When a declaration
    with a truthy [verify_crash_dump] and a missing or falsy
    [crash_test_case] is reached (in a supported API) after only
    declarations with a truthy [verify_crash_dump] in the supported APIs
    (the items of an unsupported API are skipped, whatever they hold), and
    that prefix ran without error, the loop raises [NameError]
    ([UnboundLocalError]) on reading [test_name] for the warning. *)
Theorem run_tests_unbound_test_name ex cfg items_pre api pre e post items_post d s acc s1 :
  forallb (fun it => negb (existsb (String.eqb (fst it)) SUPPORTED_APIS)
                     || forallb verify_set (snd it)) items_pre = true ->
  forallb verify_set pre = true ->
  existsb (String.eqb api) SUPPORTED_APIS = true ->
  verify_set e = true ->
  truthy (get e "crash_test_case" (JBool false)) = false ->
  mfold (run_api ex cfg) (app items_pre [(api, pre)]) (d, None) s = Ret acc s1 ->
  exists s2,
    mfold (run_api ex cfg) (app items_pre ((api, app pre (e :: post)) :: items_post)) (d, None) s
      = Raise NameError s2.
Proof.
  intros Hpre Hv Hapi He Hc H.
  rewrite mfold_app in H. rewrite mfold_app.
  apply bind_Ret in H. destruct H as (a0 & s0 & H0 & H1).
  assert (Ha0 : snd a0 = None).
  { refine (mfold_inv_in (fun acc _ => snd acc = None) _ _ _ (d, None) s a0 s0 eq_refl H0).
    intros a x s2 a' s3 Hin Hn Hs. rewrite forallb_forall in Hpre.
    rewrite (run_api_tn _ _ _ _ _ _ _ (Hpre x Hin) Hs). exact Hn. }
  change (bind (run_api ex cfg a0 (api, pre)) (mfold (run_api ex cfg) []) s0 = Ret acc s1) in H1.
  apply bind_Ret in H1. destruct H1 as (a1 & s2 & H1 & _).
  unfold run_api, log in H1. apply bind_Ret in H1. destruct H1 as (u & s3 & Hem & H1).
  rewrite Hapi in H1. unfold run_test_set in H1.
  assert (Htn : snd a1 = None).
  { rewrite <- Ha0. exact (run_test_set_tn ex cfg api pre a0 _ _ _ Hv H1). }
  destruct a1 as [d1 tn1]. simpl in Htn. subst tn1.
  assert (Hr : exists s4, run_api ex cfg a0 (api, app pre (e :: post)) s0 = Raise NameError s4).
  { unfold run_api, log. unfold bind at 1. rewrite Hem, Hapi.
    unfold run_test_set. rewrite mfold_app. unfold bind at 1. rewrite H1.
    change (mfold (process_test ex cfg api) (e :: post) (d1, None) s2)
      with (bind (process_test ex cfg api (d1, None) e) (mfold (process_test ex cfg api) post) s2).
    unfold verify_set in He. unfold process_test. rewrite He, Hc. cbn.
    eexists. reflexivity. }
  destruct Hr as [s4 Hr]. exists s4.
  unfold bind at 1. rewrite H0.
  change (mfold (run_api ex cfg) ((api, app pre (e :: post)) :: items_post) a0 s0)
    with (bind (run_api ex cfg a0 (api, app pre (e :: post))) (mfold (run_api ex cfg) items_post) s0).
  unfold bind. rewrite Hr. reflexivity.
Qed.

(** ** C1: the descriptor files of a run *)

(** C1 (failing input). [run_tests] returns from inside its loop over
    [test_descriptors]: with [--test a.json --test b.json] the configuration
    holds both files, yet only the declaration of [a.json] (case 3) is run
    and counted; the declaration of [b.json] (case 4) never starts a crash
    generator, and the run ends with the summary of [a.json] alone. *)
Theorem run_tests_second_descriptor_ignored :
  cfg_descriptors (sample_cfg ["a.json"; "b.json"]) = ["a.json"; "b.json"] /\
  match sample_run 0 true ["a.json"; "b.json"] with
  | Ret (r, d) s =>
      r = Some false /\ map cc_case_no (d_cases d) = [JNum 3] /\
      execs (s_trace s) = [["cg"; "--gtest_filter=*Case3"]]
  | _ => False
  end.
Proof. vm_compute. repeat split. Qed.

(** ** C3: the counterexample *)

(** C3 (counterexample). A run whose only case passes its capture without a
    dump (the crash generator exits with 0 and writes nothing): the backend
    stage is skipped, and the final counters count one passed backend test. *)
Lemma skipped_backend_counter_example :
  match sample_run 0 true ["a.json"] with
  | Ret (_, d) _ =>
      map cc_capture_passed (d_cases d) = [true] /\
      map cc_dump_generated (d_cases d) = [false] /\
      d_be_pass d = 1 /\ d_be_fail d = 0
  | _ => False
  end.
Proof. vm_compute. repeat split. Qed.

(** ** C4: the counterexample *)

(** C4 (counterexample). Without the sample-apps folder the run exits with
    status 1 although no test ran, so none failed. *)
Lemma exit_status_without_failed_test :
  exists s, sample_run 0 false ["a.json"] = Exit 1 s /\ execs (s_trace s) = [] /\
            exit_status (sample_run 0 false ["a.json"]) = 1.
Proof.
  eexists. split; [vm_compute; reflexivity|]. split; vm_compute; reflexivity.
Qed.

(** ** C9: a case id of 0 *)

(** C9 (failing input). A descriptor whose first declaration has
    [verify_crash_dump] true and [crash_test_case] 0: instead of the
    invalid-case warning, the run stops on [NameError] ([test_name] is not
    bound yet), with no warning logged and no process started. *)
Theorem case_zero_first_raises :
  match sample_run 0 true ["c.json"] with
  | Raise NameError s => warnings (s_trace s) = [] /\ execs (s_trace s) = []
  | _ => False
  end.
Proof. vm_compute. split; reflexivity. Qed.

(** ** Witnesses *)

Lemma launch_crash_generator_exe_capture_table_witness :
  cap_run = Ret cap_case cap_st /\ cc_capture_passed cap_case = false /\
  cc_app_crashed cap_case = false.
Proof.
  assert (H : cap_run = Ret cap_case cap_st) by (vm_compute; reflexivity).
  destruct (launch_crash_generator_exe_capture_table (exec_rc 1) sample_case "cg" "out"
              (sample_st true) cap_case cap_st H) as (_ & _ & H3 & _).
  split; [exact H|]. split; [|vm_compute; reflexivity].
  apply H3; vm_compute; [discriminate | reflexivity | reflexivity].
Defined.

Lemma skipped_backend_counted_as_passed_witness :
  run_case (exec_rc 0) (sample_cfg ["a.json"]) "DX12" (test_decl "t1" 3 true) new_driver
           (sample_st true) = Ret case_driver case_st /\
  exists c, case_driver = add_case new_driver c /\
    (cc_capture_passed c = true -> cc_dump_generated c = false ->
       forall d0, d_be_pass (tally d0 c) = d_be_pass d0 + 1 /\
                  d_be_fail (tally d0 c) = d_be_fail d0).
Proof.
  assert (H : run_case (exec_rc 0) (sample_cfg ["a.json"]) "DX12" (test_decl "t1" 3 true)
                       new_driver (sample_st true) = Ret case_driver case_st)
    by (vm_compute; reflexivity).
  split; [exact H|].
  exact (skipped_backend_counted_as_passed (exec_rc 0) (sample_cfg ["a.json"]) "DX12"
           (test_decl "t1" 3 true) new_driver (sample_st true) case_driver case_st H).
Defined.

Lemma main_exit_status_witness :
  main_run (exec_rc 0) "sf" "ts" (sample_args ["a.json"]) (sample_st true) = Ret main_a main_a_st /\
  fst main_a = Some (negb (d_cap_fail (snd main_a) =? 0) || negb (d_be_fail (snd main_a) =? 0)) /\
  (exit_status (Ret main_a main_a_st) = 1 <-> existsb case_failed (d_cases (snd main_a)) = true) /\
  (exit_status (Ret main_a main_a_st) = 0 <-> existsb case_failed (d_cases (snd main_a)) = false).
Proof.
  assert (H : main_run (exec_rc 0) "sf" "ts" (sample_args ["a.json"]) (sample_st true)
              = Ret main_a main_a_st) by (vm_compute; reflexivity).
  split; [exact H|].
  exact (main_exit_status (exec_rc 0) "sf" "ts" (sample_args ["a.json"]) (sample_st true)
           main_a main_a_st H).
Defined.


Lemma run_tests_unbound_test_name_witness :
  exists s2,
    mfold (run_api (exec_rc 0) (sample_cfg ["a.json"]))
          (app desc_vk (("DX12", app [] (test_decl "t0" 0 true :: [])) :: []))
          (new_driver, None) (sample_st true) = Raise NameError s2.
Proof.
  apply (run_tests_unbound_test_name (exec_rc 0) (sample_cfg ["a.json"]) desc_vk "DX12" []
           (test_decl "t0" 0 true) [] [] new_driver (sample_st true) loop_acc loop_st);
    vm_compute; reflexivity.
Defined.

(** * More of the harness *)

Lemma str_app_assoc (a b c : string) : (a ++ b) ++ c = a ++ (b ++ c).
Proof. induction a; simpl; congruence. Qed.

Lemma str_app_nil_r (a : string) : a ++ "" = a.
Proof. induction a; simpl; congruence. Qed.

Lemma supported_api_str_loop (l : list string) (acc : string) :
  acc <> "" ->
  fold_left (fun supported_apis api =>
               if String.eqb supported_apis "" then supported_apis ++ api
               else (supported_apis ++ ", ") ++ api) l acc
  = acc ++ fold_right (fun x r => ", " ++ x ++ r) "" l.
Proof.
  revert acc; induction l as [|x l IH]; intros acc Hacc; simpl.
  - now rewrite str_app_nil_r.
  - destruct (String.eqb_spec acc "") as [E|_]; [congruence|].
    rewrite IH. 2:{ destruct acc; simpl; congruence. }
    rewrite !str_app_assoc. reflexivity.
Qed.

Lemma concat_sep_cons (x : string) (l : list string) :
  concat_sep ", " (x :: l) = x ++ fold_right (fun y r => ", " ++ y ++ r) "" l.
Proof.
  revert x; induction l as [|y l IH]; intro x; simpl.
  - now rewrite str_app_nil_r.
  - change (x ++ ", " ++ concat_sep ", " (y :: l) = x ++ ", " ++ y ++ fold_right (fun y r => ", " ++ y ++ r) "" l).
    now rewrite IH.
Qed.

(** X1. [get_supported_api_str] joins the API names with [", "], the
    leading empty names apart (an empty name met once the string is non-empty
    is kept); for [SUPPORTED_APIS] it gives ["DX12"], the text of the
    unsupported-API message of [run_tests]. *)
Theorem get_supported_api_str_join (l : list string) :
  get_supported_api_str_of l = concat_sep ", " (skip_empty l) /\
  get_supported_api_str = "DX12".
Proof.
  split; [|reflexivity].
  unfold get_supported_api_str_of.
  induction l as [|x l IH]; [reflexivity|].
  destruct x as [|a x]; cbn [fold_left skip_empty].
  - exact IH.
  - replace (if String.eqb "" "" then "" ++ String a x else ("" ++ ", ") ++ String a x) with (String a x) by reflexivity.
    rewrite supported_api_str_loop by discriminate.
    now rewrite concat_sep_cons.
Qed.

(** X2. For minor and micro numbers below 1000, [PythonVersionValid]
    accepts exactly the versions at least 3.6.5 in lexicographic order (so
    2.7.11, the version its exit message names, is refused). *)
Theorem PythonVersionValid_lex (major minor micro : Z) :
  0 <= minor < 1000 -> 0 <= micro < 1000 ->
  (PythonVersionValid major minor micro = true <->
   3 < major \/ (major = 3 /\ (6 < minor \/ (minor = 6 /\ 5 <= micro)))).
Proof.
  intros Hmi Hmc. unfold PythonVersionValid. rewrite Z.leb_le.
  split.
  - intro H. destruct (Z_lt_le_dec 3 major); [now left|].
    right. nia.
  - intros [H|[-> [H|[-> H]]]]; nia.
Qed.

Lemma PythonVersionValid_lex_witness :
  (0 <= 7 < 1000 /\ 0 <= 11 < 1000) /\
  (PythonVersionValid 2 7 11 = true <->
   3 < 2 \/ (2 = 3 /\ (6 < 7 \/ (7 = 6 /\ 5 <= 11)))).
Proof. split; [lia | apply PythonVersionValid_lex; lia]. Defined.

(** X3. The loggers as [main] leaves them: with [--modern-output] the
    structured logger prints to the console the methods of level at least
    WARNING (INFO with [--verbose]) and writes every method to its file, while
    the legacy summary, capture and backend outputs print nothing; without it
    the structured logger prints nothing, not even [critical] (level 50 under
    the threshold 51), and the legacy outputs all print. *)
Theorem main_logger_outputs (modern_output verbose : bool) (m : logger_method) :
  console_prints (fst (main_loggers modern_output verbose)) m
    = modern_output && ((if verbose then logging_INFO else logging_WARNING) <=? method_level m) /\
  file_prints (fst (main_loggers modern_output verbose)) m = modern_output /\
  summary_console_prints (snd (main_loggers modern_output verbose)) = negb modern_output /\
  summary_file_prints (snd (main_loggers modern_output verbose)) = negb modern_output /\
  capture_file_prints (snd (main_loggers modern_output verbose)) = negb modern_output /\
  backend_file_prints (snd (main_loggers modern_output verbose)) = negb modern_output.
Proof. destruct modern_output, verbose, m; vm_compute; repeat split. Qed.

Lemma run_case_fields ex cfg api t d s d' s' :
  run_case ex cfg api t d s = Ret d' s' ->
  exists c s1, d' = add_case d c /\ log_test_results c s1 = Ret tt s' /\
    cc_api c = api /\ cc_name c = get t "test_name" (JStr "NULL") /\
    cc_case_no c = get t "crash_test_case" JNull /\
    cc_page_fault c = truthy (get t "page_fault_case" (JBool false)) /\
    cc_crashing_app_path c = cfg_gpu_trasher_path cfg.
Proof.
  unfold run_case. intro H. inv_binds.
  match goal with
  | Hl : launch_crash_generator_exe _ _ _ _ _ = Ret ?c3 _ |- _ =>
      destruct (launch_crash_generator_exe_shape _ _ _ _ _ _ _ Hl)
        as (app & p & dump & s1 & s2 & s3 & _ & _ & Hc3);
      assert (Hid : same_id
                (if truthy (get t "page_fault_case" (JBool false))
                 then set_page_fault (set_crashing_app_path (new_case api (get t "test_name" (JStr "NULL")) (get t "crash_test_case" JNull)) (cfg_gpu_trasher_path cfg)) true
                 else set_crashing_app_path (new_case api (get t "test_name" (JStr "NULL")) (get t "crash_test_case" JNull)) (cfg_gpu_trasher_path cfg)) c3)
        by (rewrite Hc3; repeat split)
  end.
  match goal with
  | Hc : (if cc_capture_passed ?c3 then _ else _) _ = Ret ?c4 _,
    Hlog : log_test_results ?c4 _ = Ret ?u _ |- _ =>
      destruct u; exists c4; eexists; split; [reflexivity|]; split; [exact Hlog|];
      assert (Hid4 : same_id c3 c4);
      [ destruct (cc_capture_passed c3); [destruct (cc_dump_generated c3)|];
        unfold summary_info in Hc; inv_binds;
        [ match goal with
          | Hb : launch_rgd_test_exe _ _ _ _ = Ret _ _ |- _ =>
              destruct (launch_rgd_test_exe_case _ _ _ _ _ _ Hb) as [b ->]
          end; repeat split
        | repeat split | repeat split ]
      | ]
  end.
  destruct Hid as (E1 & E2 & E3 & E4 & E5), Hid4 as (F1 & F2 & F3 & F4 & F5).
  rewrite F1, F2, F3, F4, F5, E1, E2, E3, E4, E5.
  destruct (truthy (get t "page_fault_case" (JBool false))); repeat split.
Qed.

Lemma process_tests_keys ex cfg api tests d tn s d' tn' s' :
  mfold (process_test ex cfg api) tests (d, tn) s = Ret (d', tn') s' ->
  map case_key (d_cases d') = app (map case_key (d_cases d)) (map (decl_key api) (filter runs_case tests)).
Proof.
  revert d tn s. induction tests as [|t tests IH]; intros d tn s H; simpl in H.
  - inversion H; subst. simpl. now rewrite app_nil_r.
  - inv_binds. destruct x as [d1 tn1].
    rewrite (IH _ _ _ H). clear H IH.
    unfold process_test, log, runs_case, verify_set in *. cbn [filter].
    destruct (truthy (get t "verify_crash_dump" (JBool false))) eqn:Ev; simpl in *.
    + destruct (truthy (get t "crash_test_case" (JBool false))) eqn:Ec; simpl in *.
      * inv_binds.
        match goal with
        | Hr : run_case _ _ _ _ _ _ = Ret _ _ |- _ =>
            destruct (run_case_fields _ _ _ _ _ _ _ _ Hr) as (c & s1 & -> & _ & F1 & F2 & F3 & _)
        end.
        simpl. rewrite map_app, <- app_assoc. simpl. unfold case_key, decl_key.
        rewrite F1, F2, F3. reflexivity.
      * destruct tn; [|unfold raise in *; discriminate]. inv_binds. reflexivity.
    + inv_binds. reflexivity.
Qed.

Lemma run_apis_keys ex cfg items d tn s d' tn' s' :
  mfold (run_api ex cfg) items (d, tn) s = Ret (d', tn') s' ->
  map case_key (d_cases d') = app (map case_key (d_cases d)) (declared_cases items).
Proof.
  revert d tn s. induction items as [|[api tests] items IH]; intros d tn s H; simpl in H.
  - inversion H; subst. simpl. now rewrite app_nil_r.
  - inv_binds. destruct x as [d1 tn1].
    rewrite (IH _ _ _ H). clear H IH.
    unfold run_api, log in *. inv_binds.
    unfold declared_cases. simpl flat_map. rewrite app_assoc. f_equal.
    match goal with
    | Hx : (if ?b then _ else _) _ = _ |- _ => destruct b
    end.
    + unfold run_test_set in *. eapply process_tests_keys. eassumption.
    + inv_binds. now rewrite app_nil_r.
Qed.

(** X9. The cases [run_tests] reports are, in order, the declarations of
    the first descriptor file whose API is supported and whose
    [verify_crash_dump] and [crash_test_case] are truthy, one case each. *)
Theorem run_tests_cases ex cfg s r d' s' :
  run_tests ex cfg new_driver s = Ret (r, d') s' ->
  map case_key (d_cases d') =
    match cfg_descriptors cfg with
    | [] => []
    | file :: _ =>
        match find (fun e => String.eqb (fst e) file) (fs_descriptors (s_fs s)) with
        | Some (_, desc) => declared_cases desc
        | None => []
        end
    end.
Proof.
  unfold run_tests, get_fs, log, emit. intro H.
  destruct (cfg_descriptors cfg) as [|file rest]; [inversion H; reflexivity|].
  inv_binds. simpl in H.
  destruct (find (fun e => String.eqb (fst e) file) (fs_descriptors (s_fs s))) as [[fname desc]|];
    [|unfold raise in H; discriminate].
  inv_binds. destruct x as [d1 tn1]. cbn [fst] in *.
  match goal with
  | Hl : log_final_test_status _ _ ?s1 = Ret ?r _ |- _ =>
      destruct (log_final_test_status_spec cfg d1 s1) as (tr & s2 & Hs & _);
      rewrite Hs in Hl; inversion Hl; subst; clear Hl
  end.
  cbv beta iota in H. inv_binds.
  match goal with
  | Hp : (if _ then _ else _) _ = Ret _ _ |- _ => clear Hp
  end.
  inv_binds.
  destruct (fold_tally_counts (d_cases d1) d1) as (-> & _).
  match goal with
  | Hm : mfold (run_api _ _) _ _ _ = Ret _ _ |- _ => rewrite (run_apis_keys _ _ _ _ _ _ _ _ _ Hm)
  end.
  reflexivity.
Qed.

Lemma main_run_end ex sf ts a s r s' :
  main_run ex sf ts a s = Ret r s' ->
  exists cs s2,
    r = (Some (lfts_failed (mkDriver cs 0 0 0 0)), fold_left tally cs (mkDriver cs 0 0 0 0)) /\
    (exists s1 b, log_final_test_status (config_of_args sf ts a) (mkDriver cs 0 0 0 0) s1
                  = Ret (b, snd r) s2) /\
    (if d_cap_pass (snd r) >? 0 then emit EvPopup else ret tt) s2 = Ret tt s'.
Proof.
  unfold main_run. intro H. inv_binds.
  match goal with
  | Hc : set_test_config _ _ _ _ = Ret _ _ |- _ => apply set_test_config_Ret in Hc; subst
  end.
  destruct (config_descriptors_cons sf ts a) as (file & rest & Hd).
  unfold run_tests, get_fs, log in H. rewrite Hd in H. inv_binds.
  match type of H with
  | (match ?x with Some _ => _ | None => _ end) _ = _ =>
      destruct x as [[fname desc]|]; [|unfold raise in H; discriminate]
  end.
  inv_binds.
  match goal with
  | Hm : mfold (run_api _ _) _ _ _ = Ret ?acc _ |- _ =>
      assert (Hf : fresh_counters acc);
      [ refine (mfold_inv fresh_counters _ _ _ _ _ _ _ _ Hm);
        [ intros; eapply run_api_fresh; eassumption | exists []; reflexivity ] | ];
      destruct Hf as [cs Hcs]; rewrite Hcs in *
  end.
  match goal with
  | Hl : log_final_test_status _ _ ?s1 = Ret ?r0 _ |- _ =>
      pose proof Hl as Hl0;
      destruct (log_final_test_status_spec (config_of_args sf ts a) (mkDriver cs 0 0 0 0) s1)
        as (tr & s2 & Hrun & _); rewrite Hrun in Hl; inversion Hl; subst r0
  end.
  cbv beta iota in H. inv_binds.
  match goal with
  | Hp : (if _ then _ else _) ?s2 = Ret ?u _, Hl : log_final_test_status _ _ ?s1 = Ret _ ?s2 |- _ =>
      destruct u; exists cs, s2; split; [reflexivity|]; split; [exists s1; eexists; exact Hl|exact Hp]
  end.
Qed.

Lemma lfts_last cfg d s r s' dflt :
  log_final_test_status cfg d s = Ret r s' -> last (s_trace s') dflt <> EvPopup.
Proof.
  unfold log_final_test_status, rmtree_out, summary_info, log, emit, get_fs, put_fs, bind, ret.
  destruct (negb (d_cap_fail (fold_left tally (d_cases d) d) =? 0)
            || negb (d_be_fail (fold_left tally (d_cases d) d) =? 0));
    [|destruct (negb (cfg_retain cfg))]; intro H; inversion H; subst; clear H;
    cbn [s_trace]; rewrite last_last; discriminate.
Qed.

Lemma fold_tally_sums cs d :
  d_cap_pass (fold_left tally cs d) = d_cap_pass d + Z.of_nat (length (filter cc_capture_passed cs)) /\
  d_cap_pass (fold_left tally cs d) + d_cap_fail (fold_left tally cs d)
    = d_cap_pass d + d_cap_fail d + Z.of_nat (length cs) /\
  d_be_pass (fold_left tally cs d) + d_be_fail (fold_left tally cs d) - d_cap_pass (fold_left tally cs d)
    = d_be_pass d + d_be_fail d - d_cap_pass d.
Proof.
  revert d. induction cs as [|c cs IH]; intro d; simpl.
  - lia.
  - destruct (IH (tally d c)) as (H1 & H2 & H3).
    unfold tally in *. destruct (cc_capture_passed c), (cc_backend_passed c); simpl in *;
      rewrite ?Nat2Z.inj_succ; lia.
Qed.

Lemma existsb_length_filter {A} (f : A -> bool) l :
  existsb f l = true <-> (0 < length (filter f l))%nat.
Proof.
  induction l as [|x l IH]; simpl; [split; [discriminate|lia]|].
  destruct (f x); simpl; [split; [lia|reflexivity]|exact IH].
Qed.

(** X10. A run that returns ends with the call of
    [close_bug_report_popup_window] exactly when some case passed its
    capture test. *)
Theorem main_run_popup ex sf ts a s r s' :
  main_run ex sf ts a s = Ret r s' ->
  (last (s_trace s') (EvLog 0 "") = EvPopup <->
   existsb cc_capture_passed (d_cases (snd r)) = true).
Proof.
  intro H. destruct (main_run_end _ _ _ _ _ _ _ H) as (cs & s2 & Hr & (s1 & b & Hl) & Hp).
  assert (Hc : d_cases (snd r) = cs) by (rewrite Hr; simpl; apply fold_tally_counts).
  assert (Hn : d_cap_pass (snd r) = Z.of_nat (length (filter cc_capture_passed cs)))
    by (rewrite Hr; simpl; destruct (fold_tally_sums cs (mkDriver cs 0 0 0 0)) as (E & _); exact E).
  rewrite Hc, existsb_length_filter.
  destruct (d_cap_pass (snd r) >? 0) eqn:Ep.
  - unfold emit in Hp. inversion Hp; subst. cbn [s_trace]. rewrite last_last.
    apply Z.gtb_lt in Ep. split; [intros _; lia|reflexivity].
  - unfold ret in Hp. inversion Hp; subst.
    rewrite Z.gtb_ltb in Ep. apply Z.ltb_ge in Ep.
    split; [intro E; exfalso; exact (lfts_last _ _ _ _ _ _ Hl E) | lia].
Qed.

(** X11. In the driver of a run that returns, the capture counters add up
    to the number of cases, and the backend counters add up to the number of
    captures that passed. *)
Theorem main_run_counters ex sf ts a s r s' :
  main_run ex sf ts a s = Ret r s' ->
  d_cap_pass (snd r) + d_cap_fail (snd r) = Z.of_nat (length (d_cases (snd r))) /\
  d_be_pass (snd r) + d_be_fail (snd r) = d_cap_pass (snd r).
Proof.
  intro H. destruct (main_run_Ret _ _ _ _ _ _ _ H) as (cs & ->). simpl.
  destruct (fold_tally_counts cs (mkDriver cs 0 0 0 0)) as (-> & _).
  destruct (fold_tally_sums cs (mkDriver cs 0 0 0 0)) as (_ & E2 & E3). simpl in *. lia.
Qed.

Lemma run_tests_api ex cfg l : run_tests ex (cfg_with_api cfg l) = run_tests ex cfg.
Proof. reflexivity. Qed.

Lemma set_test_config_cases sf ts s :
  exists s',
    s_fs s' = set_out (s_fs s) (Some (match fs_out (s_fs s) with Some l => l | None => [] end)) /\
    forall a, set_test_config sf ts a s =
      (if fs_sample_apps (s_fs s) && fs_gpu_trasher (s_fs s)
       then Ret (config_of_args sf ts a) s' else Exit 1 s').
Proof.
  unfold set_test_config, get_fs, put_fs, log, summary_info, emit, sys_exit, bind, ret.
  destruct (fs_out (s_fs s)); cbn [s_fs set_out fs_sample_apps fs_gpu_trasher];
  destruct (fs_sample_apps (s_fs s)), (fs_gpu_trasher (s_fs s)); simpl; eexists; split;
    try (intro; reflexivity); reflexivity.
Qed.

(** X12. The [--api] values have no effect: [main] behaves the same
    whatever they are, as [test_api] is computed but never read. *)
Theorem main_run_ignores_api ex sf ts a o s :
  main_run ex sf ts (mkArgs (a_test a) (a_crash_generator a) (a_rgd_test a) (a_rgd_cli a)
                            (a_retain a) o (a_verbose a) (a_modern_output a)) s
  = main_run ex sf ts a s.
Proof.
  destruct (set_test_config_cases sf ts s) as (s' & _ & H).
  unfold main_run, bind. rewrite !H.
  destruct (fs_sample_apps (s_fs s) && fs_gpu_trasher (s_fs s)); [|reflexivity].
  match goal with
  |- run_tests ex ?c1 new_driver s' = run_tests ex ?c2 new_driver s' =>
      change c1 with (cfg_with_api c2 (cfg_test_api c1))
  end.
  rewrite run_tests_api. reflexivity.
Qed.

Lemma opt_app_cons o v l : opt_app (append_opt o v) l = opt_app o (v :: l).
Proof.
  destruct o as [l0|], l as [|w l]; simpl; try reflexivity.
  rewrite <- app_assoc. reflexivity.
Qed.

Lemma last_cons_default {A} (v x : A) l : last (v :: l) x = last l v.
Proof.
  revert v x. induction l as [|w l IH]; intros v x; [reflexivity|].
  change (last (w :: l) x = last (w :: l) v). rewrite (IH w x), (IH w v). reflexivity.
Qed.

Lemma fold_invocations_fields invs : forall a,
  a_test (fold_left apply_invocation invs a) = opt_app (a_test a) (test_values invs) /\
  a_api (fold_left apply_invocation invs a) = opt_app (a_api a) (api_values invs) /\
  a_crash_generator (fold_left apply_invocation invs a) = last (cg_values invs) (a_crash_generator a) /\
  a_rgd_test (fold_left apply_invocation invs a) = last (rgd_test_values invs) (a_rgd_test a) /\
  a_rgd_cli (fold_left apply_invocation invs a) = last (rgd_cli_values invs) (a_rgd_cli a) /\
  a_verbose (fold_left apply_invocation invs a) = a_verbose a || existsb is_verbose_opt invs.
Proof.
  induction invs as [|i invs IH]; intro a; simpl.
  - destruct (a_test a), (a_api a); rewrite ?orb_false_r; repeat split.
  - destruct (IH (apply_invocation a i)) as (H1 & H2 & H3 & H4 & H5 & H6).
    rewrite H1, H2, H3, H4, H5, H6.
    destruct i; simpl;
      rewrite ?opt_app_cons, ?last_cons_default, ?orb_true_r, ?orb_assoc; repeat split.
  all: match goal with
       |- last ?L _ = match ?L with _ => _ end =>
           destruct L as [|w l]; [reflexivity|rewrite !last_cons_default; reflexivity]
       end.
Qed.

(** X15. From a command line, the descriptor files are the [--test] values
    in order ([RgdDriverSanity.json] when none), the APIs are the supported
    [--api] values in order (["DX12"] when none is given), each executable
    path is the last value of its option or its default, and verbose output
    is on exactly when [--verbose] occurs. *)
Theorem config_of_command_line sf ts dcg drt dcli invs :
  let cfg := config_of_args sf ts (parse_result dcg drt dcli invs) in
  cfg_descriptors cfg = (match test_values invs with [] => [STR_DEFAULT_TEST_DESC_FILE] | l => l end) /\
  cfg_test_api cfg = (match api_values invs with
                      | [] => ["DX12"]
                      | l => filter (fun api => existsb (String.eqb api) SUPPORTED_APIS) l
                      end) /\
  cfg_cg_exe cfg = last (cg_values invs) dcg /\
  cfg_rgd_test cfg = last (rgd_test_values invs) drt /\
  cfg_rgd_cli cfg = last (rgd_cli_values invs) dcli /\
  cfg_verbose cfg = existsb is_verbose_opt invs.
Proof.
  unfold parse_result, config_of_args. cbv zeta. simpl.
  destruct (fold_invocations_fields invs (default_args dcg drt dcli)) as (H1 & H2 & H3 & H4 & H5 & H6).
  rewrite H1, H2, H3, H4, H5, H6. simpl.
  destruct (test_values invs), (api_values invs); repeat split.
Qed.

Lemma replace_char_app a b s1 s2 :
  replace_char a b (s1 ++ s2) = replace_char a b s1 ++ replace_char a b s2.
Proof. induction s1 as [|c s1 IH]; simpl; [reflexivity|]. now rewrite IH. Qed.

Lemma replace_char_get a b s i :
  a <> b -> String.get i (replace_char a b s) <> Some a.
Proof.
  intro Hab. revert i. induction s as [|c s IH]; intro i; simpl; [discriminate|].
  destruct i as [|i]; simpl; [|apply IH].
  destruct (Ascii.eqb_spec c a); intro E; inversion E; subst; auto.
Qed.

(** X16. The gtest filter is [--gtest_filter=*Case] followed by the case
    number with each dot replaced by an underscore, and never contains a
    dot. *)
Theorem get_gtest_filter_no_dot c :
  get_gtest_filter c = "--gtest_filter=*Case" ++ replace_char "." "_" (py_str (cc_case_no c)) /\
  forall i, String.get i (get_gtest_filter c) <> Some "."%char.
Proof.
  split.
  - unfold get_gtest_filter. rewrite replace_char_app. reflexivity.
  - intro i. apply replace_char_get. discriminate.
Qed.

Lemma run_tests_cases_witness :
  run_tests (exec_rc 0) (sample_cfg ["a.json"]) new_driver (sample_st true)
    = Ret (fst tests_a, snd tests_a) tests_a_st /\
  map case_key (d_cases (snd tests_a)) =
    match cfg_descriptors (sample_cfg ["a.json"]) with
    | [] => []
    | file :: _ =>
        match find (fun e => String.eqb (fst e) file) (fs_descriptors (s_fs (sample_st true))) with
        | Some (_, desc) => declared_cases desc
        | None => []
        end
    end.
Proof.
  assert (H : run_tests (exec_rc 0) (sample_cfg ["a.json"]) new_driver (sample_st true)
              = Ret (fst tests_a, snd tests_a) tests_a_st) by (vm_compute; reflexivity).
  split; [exact H | exact (run_tests_cases _ _ _ _ _ _ H)].
Defined.

Lemma main_run_popup_witness :
  main_run (exec_rc 0) "sf" "ts" (sample_args ["a.json"]) (sample_st true) = Ret main_a main_a_st /\
  (last (s_trace main_a_st) (EvLog 0 "") = EvPopup <->
   existsb cc_capture_passed (d_cases (snd main_a)) = true).
Proof.
  assert (H : main_run (exec_rc 0) "sf" "ts" (sample_args ["a.json"]) (sample_st true)
              = Ret main_a main_a_st) by (vm_compute; reflexivity).
  split; [exact H | exact (main_run_popup _ _ _ _ _ _ _ H)].
Defined.

Lemma main_run_counters_witness :
  main_run (exec_rc 0) "sf" "ts" (sample_args ["a.json"]) (sample_st true) = Ret main_a main_a_st /\
  d_cap_pass (snd main_a) + d_cap_fail (snd main_a) = Z.of_nat (length (d_cases (snd main_a))) /\
  d_be_pass (snd main_a) + d_be_fail (snd main_a) = d_cap_pass (snd main_a).
Proof.
  assert (H : main_run (exec_rc 0) "sf" "ts" (sample_args ["a.json"]) (sample_st true)
              = Ret main_a main_a_st) by (vm_compute; reflexivity).
  split; [exact H | exact (main_run_counters _ _ _ _ _ _ _ H)].
Defined.
